(** * A shallow embedding of the manifesto MSS-to-DASH translator.

    Byte slices ([]byte) are [list Z] whose elements lie in [0, 256); Go
    strings that are only handled as text are Rocq [string]s. Outcomes of Go
    functions that return [(T, error)] and may panic are [go_result]. *)

From Stdlib Require Import ZArith String Ascii List Bool Lia.
From Stdlib Require Import Floats.SpecFloat.
Import ListNotations.
Open Scope Z_scope.

(** The three ways a Go call can end: a value with a nil error, a non-nil
    error, or a run-time panic (index out of range, negative make). *)
Inductive go_result (A : Type) : Type :=
| GoOk (a : A)
| GoErr (msg : string)
| GoPanic.
Arguments GoOk {A} a.
Arguments GoErr {A} msg.
Arguments GoPanic {A}.

(** The bytes of an ASCII string literal. *)
Definition bytes_of_string (s : string) : list Z :=
  map (fun c => Z.of_nat (nat_of_ascii c)) (list_ascii_of_string s).

Fixpoint prefixb (p s : list Z) : bool :=
  match p, s with
  | [], _ => true
  | x :: p', y :: s' => (x =? y) && prefixb p' s'
  | _ :: _, [] => false
  end.

(** * PlayReady key id extraction (internal/utils, ExtractPRKeyIdFromPssh) *)
Module PlayReady.

(** [shorts := make([]uint16, (len(data)-10)/2)] and the little-endian
    fill loop; [make] panics (None) when the length is negative. *)
Definition pssh_shorts (data : list Z) : option (list Z) :=
  let n := Z.quot (Z.of_nat (length data) - 10) 2 in
  if n <? 0 then None
  else Some (map (fun i => nth (10 + 2 * i) data 0
                          + Z.shiftl (nth (11 + 2 * i) data 0) 8)
                 (seq 0 (Z.to_nat n))).

(** unicode/utf16.Decode. *)
Fixpoint utf16_decode (s : list Z) : list Z :=
  match s with
  | [] => []
  | r :: rest =>
      if (r <? 55296) || (57344 <=? r) then r :: utf16_decode rest
      else if r <? 56320 then
        match rest with
        | r2 :: rest' =>
            if (56320 <=? r2) && (r2 <? 57344)
            then (Z.lor (Z.shiftl (r - 55296) 10) (r2 - 56320) + 65536)
                   :: utf16_decode rest'
            else 65533 :: utf16_decode rest
        | [] => [65533]
        end
      else 65533 :: utf16_decode rest
  end.

(** UTF-8 encoding of one rune, as [string(runes)] does it (runes that
    are surrogates or out of range become U+FFFD). *)
Definition utf8_encode_rune (r : Z) : list Z :=
  if (r <? 0) || (1114111 <? r) || ((55296 <=? r) && (r <? 57344))
  then [239; 191; 189]
  else if r <? 128 then [r]
  else if r <? 2048 then
    [192 + Z.shiftr r 6; 128 + Z.land r 63]
  else if r <? 65536 then
    [224 + Z.shiftr r 12; 128 + Z.land (Z.shiftr r 6) 63; 128 + Z.land r 63]
  else
    [240 + Z.shiftr r 18; 128 + Z.land (Z.shiftr r 12) 63;
     128 + Z.land (Z.shiftr r 6) 63; 128 + Z.land r 63].

Definition utf8_encode (rs : list Z) : list Z := flat_map utf8_encode_rune rs.

(** [string(utf16.Decode(shorts))]; None when [make] panicked. *)
Definition wrm_header_text (data : list Z) : option (list Z) :=
  match pssh_shorts data with
  | None => None
  | Some sh => Some (utf8_encode (utf16_decode sh))
  end.

(** The character class [[a-zA-Z0-9+/=]] of PlayReadyRegexp. *)
Definition kid_class (c : Z) : bool :=
  ((97 <=? c) && (c <=? 122)) || ((65 <=? c) && (c <=? 90))
  || ((48 <=? c) && (c <=? 57)) || (c =? 43) || (c =? 47) || (c =? 61).

Fixpoint span_class (s : list Z) : list Z * list Z :=
  match s with
  | c :: rest =>
      if kid_class c then let '(a, b) := span_class rest in (c :: a, b)
      else ([], s)
  | [] => ([], [])
  end.

(** A match of [<KID>([a-zA-Z0-9+/=]+)</KID>] starting exactly at the head
    of [s]. The class excludes [<], so the greedy group can only end at the
    end of the maximal run of class characters. *)
Definition kid_match_here (s : list Z) : option (list Z) :=
  if prefixb (bytes_of_string "<KID>") s then
    let '(run, after) := span_class (skipn 5 s) in
    match run with
    | [] => None
    | _ :: _ => if prefixb (bytes_of_string "</KID>") after then Some run else None
    end
  else None.

(** [FindStringSubmatch]: the leftmost match, its first group. *)
Fixpoint find_kid (s : list Z) : option (list Z) :=
  match kid_match_here s with
  | Some g => Some g
  | None => match s with [] => None | _ :: rest => find_kid rest end
  end.

(** The alphabet of base64.StdEncoding. *)
Definition b64_value (c : Z) : option Z :=
  if (65 <=? c) && (c <=? 90) then Some (c - 65)
  else if (97 <=? c) && (c <=? 122) then Some (c - 71)
  else if (48 <=? c) && (c <=? 57) then Some (c + 4)
  else if c =? 43 then Some 62
  else if c =? 47 then Some 63
  else None.

Definition is_nl (c : Z) : bool := (c =? 10) || (c =? 13).

Fixpoint skip_nl (s : list Z) : list Z :=
  match s with
  | c :: rest => if is_nl c then skip_nl rest else s
  | [] => []
  end.

(** The [dlen - 1] bytes of one decoded quantum of 6-bit values. *)
Definition b64_quantum (q : list Z) : list Z :=
  let v := fold_left (fun acc d => Z.lor (Z.shiftl acc 6) d)
                     (q ++ repeat 0 (4 - length q)) 0 in
  firstn (length q - 1)
         [Z.land (Z.shiftr v 16) 255; Z.land (Z.shiftr v 8) 255; Z.land v 255].

(** base64.StdEncoding.DecodeString ([decodeQuantum] of encoding/base64):
    [q] holds the 6-bit values of the current quantum; newlines are
    skipped; padding must be complete and only newlines may follow it.
    None is a non-nil error. *)
Fixpoint b64_decode_aux (src q : list Z) : option (list Z) :=
  match src with
  | [] =>
      match q with
      | [] => Some []
      | _ => None
      end
  | c :: rest =>
      match b64_value c with
      | Some d =>
          if (length q =? 3)%nat then
            match b64_decode_aux rest [] with
            | Some out => Some (b64_quantum (q ++ [d]) ++ out)
            | None => None
            end
          else b64_decode_aux rest (q ++ [d])
      | None =>
          if is_nl c then b64_decode_aux rest q
          else if negb (c =? 61) then None
          else
            match length q with
            | 2%nat =>
                match skip_nl rest with
                | p :: rest' =>
                    if (p =? 61) && (match skip_nl rest' with [] => true | _ => false end)
                    then Some (b64_quantum q) else None
                | [] => None
                end
            | 3%nat =>
                match skip_nl rest with
                | [] => Some (b64_quantum q)
                | _ => None
                end
            | _ => None
            end
      end
  end.

Definition b64_decode (s : list Z) : option (list Z) := b64_decode_aux s [].

(** ExtractPRKeyIdFromPssh. [GoOk None] is the [(nil, nil)] return. *)
Definition ExtractPRKeyIdFromPssh (data : list Z) : go_result (option (list Z)) :=
  match wrm_header_text data with
  | None => GoPanic
  | Some text =>
      match find_kid text with
      | None => GoOk None
      | Some g =>
          match b64_decode g with
          | None => GoErr "illegal base64 data"
          | Some keyBytes =>
              if negb (length keyBytes =? 16)%nat then GoOk None
              else
                let kb i := nth i keyBytes 0 in
                GoOk (Some [kb 3%nat; kb 2%nat; kb 1%nat; kb 0%nat;
                            kb 5%nat; kb 4%nat; kb 7%nat; kb 6%nat;
                            kb 8%nat; kb 9%nat; kb 10%nat; kb 11%nat;
                            kb 12%nat; kb 13%nat; kb 14%nat; kb 15%nat])
          end
      end
  end.

(** A PlayReady object as it is stored: a 10-byte header followed by the
    UTF-16LE WRMHEADER text (used to build concrete inputs). *)
Definition utf16le (s : list Z) : list Z :=
  flat_map (fun c => [Z.land c 255; Z.shiftr c 8]) s.

Definition pr_object (xml : string) : list Z :=
  repeat 0 10 ++ utf16le (bytes_of_string xml).

End PlayReady.

(** * Decimal text helpers shared by the formatters *)

Definition digit_char (d : Z) : ascii := ascii_of_nat (Z.to_nat (48 + d)).

(** Decimal digits of a non-negative integer (at most [fuel] digits). *)
Fixpoint dec_digits_aux (fuel : nat) (n : Z) (acc : string) : string :=
  match fuel with
  | O => acc
  | S f =>
      let acc' := String (digit_char (n mod 10)) acc in
      if n <? 10 then acc' else dec_digits_aux f (n / 10) acc'
  end.

Definition dec_digits (n : Z) : string :=
  dec_digits_aux (S (Z.to_nat (Z.log2 (Z.max n 1)))) n EmptyString.

(** strconv.Itoa / fmt [%d]. *)
Definition go_itoa (n : Z) : string :=
  if n <? 0 then String "-" (dec_digits (- n)) else dec_digits n.

(** [n] zero characters. *)
Fixpoint zeros (n : nat) : string :=
  match n with O => EmptyString | S k => String "0" (zeros k) end.

Fixpoint spaces (n : nat) : string :=
  match n with O => EmptyString | S k => String " " (spaces k) end.

(** * IEEE 754 binary64 (Go float64), on the Standard Library's SpecFloat *)
Module F64.

Definition prec : Z := 53.
Definition emax : Z := 1024.

Definition t : Type := spec_float.

Definition add : t -> t -> t := SFadd prec emax.
Definition sub : t -> t -> t := SFsub prec emax.
Definition mul : t -> t -> t := SFmul prec emax.
Definition div : t -> t -> t := SFdiv prec emax.

(** [float64(n)] for an integer [n]: round to nearest, ties to even. *)
Definition of_Z (n : Z) : t := binary_normalize prec emax n 0 false.

(** The value [n / d] (d > 0) correctly rounded: the quotient is computed
    with at least 60 significant bits and a sticky bit, so the final
    rounding of [binary_normalize] is the rounding of the exact value. *)
Definition of_ratio (neg : bool) (n d : Z) : t :=
  let s := 60 + 4 * Z.log2 (d + 1) in
  let q := Z.shiftl n s / d in
  let r := Z.shiftl n s mod d in
  let m := 2 * q + (if r =? 0 then 0 else 1) in
  binary_normalize prec emax (if neg then - m else m) (- (s + 1)) neg.

Definition is_finite (x : t) : bool :=
  match x with S754_zero _ | S754_finite _ _ _ => true | _ => false end.

(** Go's [int(x)] on amd64 (CVTTSD2SQ): truncation toward zero, and the
    integer indefinite value [-2^63] for NaN, infinities and out-of-range
    values. *)
Definition to_int64 (x : t) : Z :=
  let indef := - 2 ^ 63 in
  match x with
  | S754_zero _ => 0
  | S754_finite s m e =>
      let a := if 0 <=? e then Z.shiftl (Zpos m) e else Z.shiftr (Zpos m) (- e) in
      if 2 ^ 63 <=? a then indef else if s then - a else a
  | _ => indef
  end.

(** The exact value of a finite float times 1000, rounded to the nearest
    integer, ties to even (strconv's decimal rounding for [%.3f]). *)
Definition round_milli (m : positive) (e : Z) : Z :=
  if 0 <=? e then Zpos m * 1000 * 2 ^ e
  else
    let den := 2 ^ (- e) in
    let q := (Zpos m * 1000) / den in
    let r := (Zpos m * 1000) mod den in
    if den <? 2 * r then q + 1
    else if 2 * r =? den then (if Z.even q then q else q + 1)
    else q.

(** The digits of [%.3f] without sign. *)
Definition milli_text (x : Z) : string :=
  let frac := dec_digits (x mod 1000) in
  (dec_digits (x / 1000) ++ "." ++ zeros (3 - String.length frac) ++ frac)%string.

(** fmt's [%06.3f]: zero padding after the sign up to width 6; NaN and
    infinities are padded with spaces instead (fmtFloat). *)
Definition fmt_06_3f (x : t) : string :=
  match x with
  | S754_nan => (spaces 3 ++ "NaN")%string
  | S754_infinity false => (spaces 2 ++ "+Inf")%string
  | S754_infinity true => (spaces 2 ++ "-Inf")%string
  | S754_zero s =>
      let body := milli_text 0 in
      if s then ("-" ++ zeros (5 - String.length body) ++ body)%string
      else (zeros (6 - String.length body) ++ body)%string
  | S754_finite s m e =>
      let body := milli_text (round_milli m e) in
      if s then ("-" ++ zeros (5 - String.length body) ++ body)%string
      else (zeros (6 - String.length body) ++ body)%string
  end.

End F64.

(** fmt's [%02d]. *)
Definition fmt_02d (n : Z) : string :=
  let body := dec_digits (Z.abs n) in
  if n <? 0 then ("-" ++ zeros (1 - String.length body) ++ body)%string
  else (zeros (2 - String.length body) ++ body)%string.

(** * TTML timestamp rebasing (segment/subtitle) *)
Module Ttml.
Local Open Scope string_scope.
Local Open Scope list_scope.
Local Open Scope Z_scope.

Definition is_digit (c : ascii) : bool :=
  let n := nat_of_ascii c in (48 <=? n)%nat && (n <=? 57)%nat.

Definition digit_val (c : ascii) : Z := Z.of_nat (nat_of_ascii c) - 48.

Definition lower (c : ascii) : ascii :=
  let n := nat_of_ascii c in
  if (65 <=? n)%nat && (n <=? 90)%nat then ascii_of_nat (n + 32) else c.

Definition in_set (set : string) (c : ascii) : bool :=
  existsb (fun d => Ascii.eqb c d) (list_ascii_of_string set).

Definition lower_list (l : list ascii) : list ascii := map lower l.

Fixpoint list_eqb (eqb : ascii -> ascii -> bool) (l1 l2 : list ascii) : bool :=
  match l1, l2 with
  | [], [] => true
  | a :: r1, b :: r2 => eqb a b && list_eqb eqb r1 r2
  | _, _ => false
  end.

Fixpoint digits_value (acc : Z) (l : list ascii) : Z :=
  match l with
  | [] => acc
  | c :: r => digits_value (10 * acc + digit_val c) r
  end.

(** The mantissa of a decimal literal: digits with at most one point;
    returns the integer of all digits, the number of fraction digits and
    whether any digit was seen, or None on an underscore or second point. *)
Fixpoint read_mantissa (l : list ascii) (seen_point : bool)
    (acc : Z) (nfrac : Z) (any : bool) : option (Z * Z * bool * list ascii) :=
  match l with
  | c :: r =>
      if is_digit c then
        read_mantissa r seen_point (10 * acc + digit_val c)
                      (if seen_point then nfrac + 1 else nfrac) true
      else if Ascii.eqb c "." then
        if seen_point then None else read_mantissa r true acc nfrac any
      else if Ascii.eqb c "_" then None
      else Some (acc, nfrac, any, l)
  | [] => Some (acc, nfrac, any, [])
  end.

(** The exponent part [(e|E)[+-]?digits] that must end the literal. *)
Definition read_exponent (l : list ascii) : option Z :=
  match l with
  | [] => Some 0
  | e :: r =>
      if Ascii.eqb (lower e) "e" then
        let '(neg, ds) :=
          match r with
          | c :: r' => if Ascii.eqb c "-" then (true, r')
                       else if Ascii.eqb c "+" then (false, r') else (false, r)
          | [] => (false, [])
          end in
        if (negb (Nat.eqb (List.length ds) 0)) && forallb is_digit ds
        then let v := digits_value 0 ds in Some (if neg then - v else v)
        else None
      else None
  end.

(** strconv.ParseFloat(s, 64) for decimal literals and the special
    spellings inf, infinity and nan; None is a non-nil error (syntax, or a
    value that rounds beyond the largest float64). Hexadecimal literals
    (0x...p...) are not part of this model and are reported as errors. *)
Definition ParseFloat (s : string) : option F64.t :=
  let l := list_ascii_of_string s in
  let '(neg, body) :=
    match l with
    | c :: r => if Ascii.eqb c "-" then (true, r)
                else if Ascii.eqb c "+" then (false, r) else (false, l)
    | [] => (false, [])
    end in
  let lb := lower_list body in
  if (match l with c :: _ => Ascii.eqb (lower c) "n" | [] => false end)
     && list_eqb Ascii.eqb (lower_list l) (list_ascii_of_string "nan")
  then Some S754_nan
  else if list_eqb Ascii.eqb lb (list_ascii_of_string "inf")
          || list_eqb Ascii.eqb lb (list_ascii_of_string "infinity")
  then Some (S754_infinity neg)
  else if (match body with
           | c0 :: cx :: _ => Ascii.eqb c0 "0" && Ascii.eqb (lower cx) "x"
           | _ => false end)
  then None
  else
    match read_mantissa body false 0 0 false with
    | None => None
    | Some (mant, nfrac, any, rest) =>
        if negb any then None else
        match read_exponent rest with
        | None => None
        | Some ex =>
            let e10 := ex - nfrac in
            let v :=
              if Z.eqb mant 0 then S754_zero neg
              else if 0 <=? e10 then
                binary_normalize F64.prec F64.emax
                  ((if neg then - mant else mant) * 10 ^ e10) 0 neg
              else F64.of_ratio neg mant (10 ^ (- e10)) in
            if F64.is_finite v then Some v else None
        end
    end.

(** fmt scanning with Sscanf: skipping blanks before an operand ([SkipSpace];
    a newline is an error there; only ASCII blanks are modelled). *)
Fixpoint skip_space (l : list ascii) : option (list ascii) :=
  match l with
  | c :: r =>
      if Ascii.eqb c "010"%char then None
      else if in_set (String " " (String "009"%char (String "011"%char
                (String "012"%char (String "013"%char EmptyString))))) c
      then skip_space r
      else Some l
  | [] => Some []
  end.

Fixpoint take_while (p : ascii -> bool) (l : list ascii) : list ascii * list ascii :=
  match l with
  | c :: r => if p c then let '(a, b) := take_while p r in (c :: a, b) else ([], l)
  | [] => ([], [])
  end.

Definition accept (set : string) (l : list ascii) : list ascii * list ascii :=
  match l with
  | c :: r => if in_set set c then ([c], r) else ([], l)
  | [] => ([], [])
  end.

(** [%d] into an int: blanks, an optional sign, then a run of
    [0123456789_] that strconv.ParseInt(tok, 10, 64) must accept. *)
Definition scan_int (l : list ascii) : option (Z * list ascii) :=
  match skip_space l with
  | None | Some [] => None
  | Some l1 =>
      let '(sg, l2) := accept "+-" l1 in
      let '(ds, l3) := take_while (in_set "0123456789_") l2 in
      match ds with
      | [] => None
      | _ =>
          if existsb (fun c => Ascii.eqb c "_") ds then None
          else
            let v := digits_value 0 ds in
            let v := if list_eqb Ascii.eqb sg ["-"%char] then - v else v in
            if (v <? - 2 ^ 63) || (2 ^ 63 - 1 <? v) then None
            else Some (v, l3)
      end
  end.

(** [floatToken] of fmt/scan.go. *)
Definition float_token (l : list ascii) : list ascii * list ascii :=
  let '(n1, r1) := accept "nN" l in
  let '(a1, r2) := match n1 with [] => ([], r1) | _ => accept "aA" r1 end in
  let '(n2, r3) := match a1 with [] => ([], r2) | _ => accept "nN" r2 end in
  match n2 with
  | _ :: _ => (n1 ++ a1 ++ n2, r3)
  | [] =>
      let pre := n1 ++ a1 in
      let '(sg, r4) := accept "+-" r3 in
      let '(i1, r5) := accept "iI" r4 in
      let '(n3, r6) := match i1 with [] => ([], r5) | _ => accept "nN" r5 end in
      let '(f1, r7) := match n3 with [] => ([], r6) | _ => accept "fF" r6 end in
      match f1 with
      | _ :: _ => (pre ++ sg ++ i1 ++ n3 ++ f1, r7)
      | [] =>
          let pre := pre ++ sg ++ i1 ++ n3 in
          let '(z, r8) := accept "0" r7 in
          let '(x, r9) := match z with [] => ([], r8) | _ => accept "xX" r8 end in
          let hex := match x with [] => false | _ => true end in
          let digits := if hex then "0123456789aAbBcCdDeEfF_" else "0123456789_" in
          let '(d1, r10) := take_while (in_set digits) r9 in
          let '(pt, r11) := accept "." r10 in
          let '(d2, r12) := match pt with [] => ([], r11)
                            | _ => take_while (in_set digits) r11 end in
          let '(ex, r13) := accept (if hex then "pP" else "eE") r12 in
          let '(es, r14) := match ex with [] => ([], r13) | _ => accept "+-" r13 end in
          let '(ed, r15) := match ex with [] => ([], r14)
                            | _ => take_while (in_set "0123456789_") r14 end in
          (pre ++ z ++ x ++ d1 ++ pt ++ d2 ++ ex ++ es ++ ed, r15)
      end
  end.

(** [%f] into a float64. *)
Definition scan_float (l : list ascii) : option F64.t :=
  match skip_space l with
  | None | Some [] => None
  | Some l1 => let '(tok, _) := float_token l1 in ParseFloat (string_of_list_ascii tok)
  end.

Definition expect_colon (l : list ascii) : option (list ascii) :=
  match l with
  | c :: r => if Ascii.eqb c ":" then Some r else None
  | [] => None
  end.

(** [fmt.Sscanf(value, "%d:%d:%f", &h, &m, &s)]; trailing input is ignored. *)
Definition sscanf_hms (value : string) : option (Z * Z * F64.t) :=
  let l := list_ascii_of_string value in
  match scan_int l with
  | None => None
  | Some (h, l1) =>
      match expect_colon l1 with
      | None => None
      | Some l2 =>
          match scan_int l2 with
          | None => None
          | Some (m, l3) =>
              match expect_colon l3 with
              | None => None
              | Some l4 =>
                  match scan_float l4 with
                  | None => None
                  | Some s => Some (h, m, s)
                  end
              end
          end
      end
  end.

(** parseTTMLTime. *)
Definition parseTTMLTime (value : string) : option F64.t :=
  if existsb (fun c => Ascii.eqb c ":") (list_ascii_of_string value) then
    match sscanf_hms value with
    | None => None
    | Some (h, m, s) =>
        Some (F64.add (F64.add (F64.mul (F64.of_Z h) (F64.of_Z 3600))
                               (F64.mul (F64.of_Z m) (F64.of_Z 60))) s)
    end
  else ParseFloat value.

(** formatTTMLTime. *)
Definition formatTTMLTime (seconds : F64.t) : string :=
  let i := F64.to_int64 seconds in
  let h := Z.quot i 3600 in
  let m := Z.quot (Z.rem i 3600) 60 in
  let s := F64.sub seconds (F64.of_Z (h * 3600 + m * 60)) in
  (fmt_02d h ++ ":" ++ fmt_02d m ++ ":" ++ F64.fmt_06_3f s)%string.

End Ttml.

(** * The TTML rewrite of UpdateTTMLToAbsoluteTimestamps over the raw XML
    token stream of encoding/xml's [Decoder.RawToken]. *)
Module TtmlXml.
Local Open Scope string_scope.

(** The double-quote character and the one-character string holding it. *)
Definition dq_char : ascii := Ascii.ascii_of_nat 34.
Definition dq : string := String dq_char EmptyString.

Record xname := mkName { name_space : string; name_local : string }.
Record xattr := mkAttr { attr_name : xname; attr_value : string }.

Inductive xtoken :=
| StartElement (n : xname) (attrs : list xattr)
| EndElement (n : xname)
| CharData (s : string)
| Comment (s : string)
| ProcInst (target inst : string)
| Directive (s : string).

(** html.EscapeString. *)
Fixpoint html_escape (s : string) : string :=
  match s with
  | EmptyString => EmptyString
  | String c r =>
      let e :=
        if Ascii.eqb c "&" then "&amp;"
        else if Ascii.eqb c "'" then "&#39;"
        else if Ascii.eqb c "<" then "&lt;"
        else if Ascii.eqb c ">" then "&gt;"
        else if Ascii.eqb c dq_char then "&#34;"
        else String c EmptyString in
      e ++ html_escape r
  end.

(** writeAttr. *)
Definition writeAttr (n : xname) (val : string) : string :=
  if String.eqb (name_space n) "" then
    " " ++ name_local n ++ "=" ++ dq ++ val ++ dq
  else " " ++ name_space n ++ ":" ++ name_local n ++ "=" ++ dq ++ val ++ dq.

(** writeStartElement. *)
Definition writeStartElement (n : xname) (attrs : list xattr) : string :=
  "<" ++ name_local n
  ++ String.concat "" (map (fun a => writeAttr (attr_name a) (attr_value a)) attrs)
  ++ ">".

(** The value written for one attribute of a [<p>] element. *)
Definition p_attr_value (segmentStartSeconds : F64.t) (a : xattr) : string :=
  let val := attr_value a in
  if String.eqb (name_local (attr_name a)) "begin"
     || String.eqb (name_local (attr_name a)) "end" then
    match Ttml.parseTTMLTime val with
    | Some seconds => Ttml.formatTTMLTime (F64.add seconds segmentStartSeconds)
    | None => val
    end
  else val.

(** The text written for one token (the body of the token loop). *)
Definition write_token (segmentStartSeconds : F64.t) (tok : xtoken) : string :=
  match tok with
  | StartElement n attrs =>
      if String.eqb (name_local n) "p" then
        "<" ++ name_local n
        ++ String.concat ""
             (map (fun a => writeAttr (attr_name a) (p_attr_value segmentStartSeconds a))
                  attrs)
        ++ ">"
      else writeStartElement n attrs
  | EndElement n => "</" ++ name_local n ++ ">"
  | CharData s => html_escape s
  | Comment s => "<!--" ++ s ++ "-->"
  | ProcInst target inst => "<?" ++ target ++ " " ++ inst ++ "?>"
  | Directive s => "<!" ++ s ++ ">"
  end.

(** UpdateTTMLToAbsoluteTimestamps. [raw_tokens input] is the token
    sequence [RawToken] yields up to [io.EOF], or None when it stops with
    an error. *)
Definition UpdateTTMLToAbsoluteTimestamps
    (raw_tokens : string -> option (list xtoken))
    (input : string) (segmentStartSeconds : F64.t) : go_result string :=
  match raw_tokens input with
  | None => GoErr "xml decode error"
  | Some toks => GoOk (String.concat "" (map (write_token segmentStartSeconds) toks))
  end.

End TtmlXml.

(** * Fragmented MP4 as mp4ff decodes it, and the segment processors
    (segment/video, segment/audio, segment/subtitle).

    A file is the decoded box tree that [mp4.DecodeFile] produces and that
    [Encode] serialises again; the processors are modelled on that tree,
    the value handed to [Encode]. A [traf] keeps the [Tfhd] and [Truns]
    pointers next to its [Children] list, whose entries only record which
    boxes are present and in which order. *)
Module Mp4.
Local Open Scope string_scope.
Local Open Scope list_scope.
Local Open Scope Z_scope.

Record tfhd_box := mkTfhd {
  tfhd_track_id : Z;
  tfhd_flags : Z;
  tfhd_default_sample_size : Z;
  tfhd_default_sample_duration : Z }.

Record sample := mkSample { smp_dur : Z; smp_size : Z; smp_flags : Z; smp_cto : Z }.
Definition empty_sample : sample := mkSample 0 0 0 0.

Record trun_box := mkTrun {
  trun_flags : Z;
  trun_data_offset : Z;
  trun_samples : list sample }.

(** Children of a [traf]; [TfdtC] carries base_media_decode_time. *)
Inductive traf_child :=
| TfhdC
| TrunC
| TfdtC (base_media_decode_time : Z)
| SdtpC
| OtherTrafC (typ : string).

Definition traf_child_type (c : traf_child) : string :=
  match c with
  | TfhdC => "tfhd" | TrunC => "trun" | TfdtC _ => "tfdt" | SdtpC => "sdtp"
  | OtherTrafC t => t
  end.

Record traf := mkTraf {
  traf_tfhd : option tfhd_box;      (** [Traf.Tfhd], nil when absent *)
  traf_truns : list trun_box;       (** [Traf.Truns]; [Traf.Trun] is the first *)
  traf_children : list traf_child }.

Record sidx_ref := mkSidxRef {
  ref_referenced_size : Z; ref_reference_type : Z; ref_subsegment_duration : Z;
  ref_starts_with_sap : Z; ref_sap_type : Z; ref_sap_delta_time : Z }.

Record sidx_box := mkSidx {
  sidx_version : Z; sidx_reference_id : Z; sidx_timescale : Z;
  sidx_earliest_presentation_time : Z; sidx_first_offset : Z;
  sidx_refs : list sidx_ref }.

(** Children of a fragment ([Fragment.Children]). *)
Inductive frag_child :=
| SidxF (s : sidx_box)
| MoofF
| MdatF
| OtherFragC (typ : string).

Definition frag_child_type (c : frag_child) : string :=
  match c with SidxF _ => "sidx" | MoofF => "moof" | MdatF => "mdat" | OtherFragC t => t end.

Record fragment := mkFragment {
  frag_children : list frag_child;
  frag_traf : option traf;          (** [Moof.Traf], nil when absent *)
  frag_mdat : option string }.      (** [Mdat.Data]; the Mdat pointer may be nil *)

Record segment := mkSegment { seg_fragments : list fragment }.

Record file := mkFile { file_is_fragmented : bool; file_segments : list segment }.

(** Sequencing of Go statements that may fail or panic. *)
Definition bind {A B} (r : go_result A) (k : A -> go_result B) : go_result B :=
  match r with
  | GoOk a => k a
  | GoErr m => GoErr m
  | GoPanic => GoPanic
  end.

Fixpoint map_go {A B} (f : A -> go_result B) (l : list A) : go_result (list B) :=
  match l with
  | [] => GoOk []
  | x :: r => bind (f x) (fun y => bind (map_go f r) (fun ys => GoOk (y :: ys)))
  end.

(** [fragment.Moof.Traf.Tfhd.TrackID = 1]; a nil Traf or Tfhd panics. *)
Definition set_track_id_1 (tr : traf) : go_result traf :=
  match traf_tfhd tr with
  | None => GoPanic
  | Some th =>
      GoOk (mkTraf (Some (mkTfhd 1 (tfhd_flags th) (tfhd_default_sample_size th)
                                 (tfhd_default_sample_duration th)))
                   (traf_truns tr) (traf_children tr))
  end.

(** [fragment.Moof.Traf.Trun.DataOffset = 0]; a nil Trun panics. *)
Definition reset_data_offset (tr : traf) : go_result traf :=
  match traf_truns tr with
  | [] => GoPanic
  | t0 :: ts =>
      GoOk (mkTraf (traf_tfhd tr)
                   (mkTrun (trun_flags t0) 0 (trun_samples t0) :: ts)
                   (traf_children tr))
  end.

Definition with_children (tr : traf) (cs : list traf_child) : traf :=
  mkTraf (traf_tfhd tr) (traf_truns tr) cs.

(** [mp4.CreateTfdt(chunkId)] appended by [Traf.AddChild]. *)
Definition add_tfdt_if_missing (has_tfdt : bool) (chunkId : Z) (cs : list traf_child)
  : list traf_child :=
  if has_tfdt then cs else cs ++ [TfdtC chunkId].

(** The scan of ProcessAudioSegment and ProcessSubtitleSegment: look for a
    child of type "tfdt", stopping at the first. *)
Definition has_tfdt (cs : list traf_child) : bool :=
  existsb (fun c => String.eqb (traf_child_type c) "tfdt") cs.

(** The scan of ProcessVideoSegment:
      for i, child := range Children {
        if child.Type() == "sdtp" { Children = append(Children[:i], Children[i+1:]...) }
        if child.Type() == "tfdt" { hasTfdt = true } }
    [range] evaluates the slice once: it runs over the original length
    and reads [child] from the shared backing array [arr] at each step,
    while the removal shifts [arr[i+1..len)] one place left in place and
    shortens the slice ([len]). [Children[i+1:]] panics when [i+1 > len]. *)
Definition video_scan_step (st : go_result (list traf_child * nat * bool)) (i : nat)
  : go_result (list traf_child * nat * bool) :=
  bind st (fun '(arr, len, hasTfdt) =>
    let child := nth i arr (OtherTrafC "") in
    let removed :=
      if String.eqb (traf_child_type child) "sdtp" then
        if (len <? i + 1)%nat then GoPanic
        else GoOk (firstn i arr ++ firstn (len - i - 1) (skipn (i + 1) arr)
                     ++ skipn (len - 1) arr, (len - 1)%nat)
      else GoOk (arr, len) in
    bind removed (fun '(arr', len') =>
      GoOk (arr', len', hasTfdt || String.eqb (traf_child_type child) "tfdt"))).

Definition video_scan (cs : list traf_child) : go_result (list traf_child * bool) :=
  bind (fold_left video_scan_step (seq 0 (List.length cs)) (GoOk (cs, List.length cs, false)))
       (fun '(arr, len, hasTfdt) => GoOk (firstn len arr, hasTfdt)).

(** The body of the fragment loop of ProcessVideoSegment. *)
Definition video_fragment (chunkId : Z) (f : fragment) : go_result fragment :=
  match frag_traf f with
  | None => GoPanic
  | Some tr0 =>
      bind (set_track_id_1 tr0) (fun tr1 =>
      bind (reset_data_offset tr1) (fun tr2 =>
      bind (video_scan (traf_children tr2)) (fun '(cs, hasTfdt) =>
      GoOk (mkFragment (frag_children f)
              (Some (with_children tr2 (add_tfdt_if_missing hasTfdt chunkId cs)))
              (frag_mdat f)))))
  end.

(** The body of the fragment loop of ProcessAudioSegment. *)
Definition audio_fragment (chunkId : Z) (f : fragment) : go_result fragment :=
  match frag_traf f with
  | None => GoPanic
  | Some tr0 =>
      bind (set_track_id_1 tr0) (fun tr1 =>
      bind (reset_data_offset tr1) (fun tr2 =>
      GoOk (mkFragment (frag_children f)
              (Some (with_children tr2
                       (add_tfdt_if_missing (has_tfdt (traf_children tr2)) chunkId
                          (traf_children tr2))))
              (frag_mdat f))))
  end.

Section Processors.
(** mp4ff's CENC decryption of one segment ([mp4.DecryptSegment]). *)
Variable DecryptInfo : Type.
Variable DecryptSegment : segment -> DecryptInfo -> list Z -> go_result segment.

(** The segment loop shared by ProcessVideoSegment and ProcessAudioSegment:
    rewrite every fragment, then decrypt the segment when a key is given. *)
Definition process_av (frag_step : fragment -> go_result fragment)
    (decryptInfo : DecryptInfo) (key : option (list Z)) (inMp4 : file) : go_result file :=
  if negb (file_is_fragmented inMp4) then
    GoErr "input mp4 file is not fragmented, this isn't supported"
  else
    bind (map_go (fun seg =>
            bind (map_go frag_step (seg_fragments seg)) (fun frs =>
            let seg' := mkSegment frs in
            match key with
            | Some k => DecryptSegment seg' decryptInfo k
            | None => GoOk seg'
            end)) (file_segments inMp4))
      (fun segs => GoOk (mkFile (file_is_fragmented inMp4) segs)).

Definition ProcessVideoSegment (inMp4 : file) (decryptInfo : DecryptInfo)
    (key : option (list Z)) (chunkId : Z) : go_result file :=
  process_av (video_fragment chunkId) decryptInfo key inMp4.

Definition ProcessAudioSegment (inMp4 : file) (decryptInfo : DecryptInfo)
    (key : option (list Z)) (chunkId : Z) : go_result file :=
  process_av (audio_fragment chunkId) decryptInfo key inMp4.

End Processors.

(** The sidx box ProcessSubtitleSegment puts first when a fragment has none. *)
Definition subtitle_sidx (timeScale segmentDuration : Z) : sidx_box :=
  mkSidx 1 1 timeScale 17443164950004000 0
    [mkSidxRef 0 0 segmentDuration 1 1 0].

Definition has_sidx (cs : list frag_child) : bool :=
  existsb (fun c => String.eqb (frag_child_type c) "sidx") cs.

(** [mp4.TrunFirstSampleFlagsPresentFlag | TrunSampleDurationPresentFlag |
    TrunSampleSizePresentFlag | TrunSampleFlagsPresentFlag |
    TrunSampleCompositionTimeOffsetPresentFlag]. *)
Definition trun_sample_flags_mask : Z := 0x04 + 0x100 + 0x200 + 0x400 + 0x800.

(** [DefaultSampleSizePresent | DefaultSampleDurationPresent]. *)
Definition tfhd_default_flags : Z := 0x000010 + 0x000008.

(** [truns.Flags &^= mask; truns.Samples = []mp4.Sample{}; truns.AddSample(mp4.Sample{})]. *)
Definition reset_trun (t : trun_box) : trun_box :=
  mkTrun (Z.land (trun_flags t) (Z.lnot trun_sample_flags_mask))
         (trun_data_offset t) [empty_sample].

Section Subtitle.
(** The tokenizer of [encoding/xml] ([Decoder.RawToken] run up to io.EOF). *)
Variable raw_tokens : string -> option (list TtmlXml.xtoken).

(** The body of the fragment loop of ProcessSubtitleSegment. *)
Definition subtitle_fragment (chunkId timeScale segmentDuration : Z) (f : fragment)
  : go_result fragment :=
  match frag_traf f with
  | None => GoPanic
  | Some tr0 =>
      bind (set_track_id_1 tr0) (fun tr1 =>
      let cs := add_tfdt_if_missing (has_tfdt (traf_children tr1)) chunkId
                  (traf_children tr1) in
      let fcs :=
        if negb (has_sidx (frag_children f)) && (0 <? timeScale) && (0 <? segmentDuration)
        then SidxF (subtitle_sidx timeScale segmentDuration) :: frag_children f
        else frag_children f in
      let segmentStartTime := F64.div (F64.of_Z chunkId) (F64.of_Z timeScale) in
      match frag_mdat f with
      | None => GoPanic
      | Some data =>
          match TtmlXml.UpdateTTMLToAbsoluteTimestamps raw_tokens data segmentStartTime with
          | GoOk enhancedTTML =>
              match traf_tfhd tr1 with
              | None => GoPanic
              | Some th =>
                  let th' := mkTfhd (tfhd_track_id th)
                               (Z.lor (tfhd_flags th) tfhd_default_flags)
                               (Z.modulo (Z.of_nat (String.length enhancedTTML)) (2 ^ 32))
                               segmentDuration in
                  GoOk (mkFragment fcs
                          (Some (mkTraf (Some th') (map reset_trun (traf_truns tr1)) cs))
                          (Some enhancedTTML))
              end
          | GoErr m => GoErr ("failed to enhance TTML: " ++ m)
          | GoPanic => GoPanic
          end
      end)
  end.

Definition ProcessSubtitleSegment (inMp4 : file) (chunkId timeScale segmentDuration : Z)
  : go_result file :=
  if negb (file_is_fragmented inMp4) then
    GoErr "input mp4 file is not fragmented, this isn't supported"
  else
    bind (map_go (fun seg =>
            bind (map_go (subtitle_fragment chunkId timeScale segmentDuration)
                         (seg_fragments seg))
                 (fun frs => GoOk (mkSegment frs))) (file_segments inMp4))
      (fun segs => GoOk (mkFile (file_is_fragmented inMp4) segs)).

End Subtitle.

End Mp4.

(** * encoding/hex and the EC-3 private data (segment/audio, de3 init).

    [hex.DecodeString(s)] converts [s] to a fresh byte slice and decodes in
    place ([Decode(src, src)]), returning [src[:n]]. The slice therefore
    keeps the capacity of the conversion's allocation: the Go runtime rounds
    the length up to its size class ([roundupsize]) and zeroes the bytes
    past the string, while the bytes between [n] and [len(s)] keep the hex
    characters that were read. *)
Module Hex.
Local Open Scope Z_scope.
Local Open Scope list_scope.

(** The runtime's small size classes (runtime/sizeclasses.go). *)
Definition size_classes : list Z :=
  [8; 16; 24; 32; 48; 64; 80; 96; 112; 128; 144; 160; 176; 192; 208; 224; 240; 256;
   288; 320; 352; 384; 416; 448; 480; 512; 576; 640; 704; 768; 896; 1024; 1152; 1280;
   1408; 1536; 1792; 2048; 2304; 2688; 3072; 3200; 3456; 4096; 4864; 5376; 6144;
   6528; 6784; 6912; 8192; 9472; 9728; 10240; 10880; 12288; 13568; 14336; 16384;
   18432; 19072; 20480; 21760; 24576; 27264; 28672; 32768].

(** [roundupsize] for a pointer-free allocation: the first size class that
    holds [size]; past the largest class, whole 8192-byte pages. *)
Definition roundupsize (size : Z) : Z :=
  match find (fun c => size <=? c) size_classes with
  | Some c => c
  | None => 8192 * ((size + 8191) / 8192)
  end.

(** [reverseHexTable]: the value of a hex digit, None for any other byte. *)
Definition hex_val (b : Z) : option Z :=
  if (48 <=? b) && (b <=? 57) then Some (b - 48)
  else if (97 <=? b) && (b <=? 102) then Some (b - 87)
  else if (65 <=? b) && (b <=? 70) then Some (b - 55)
  else None.

(** The pair loop of [hex.Decode]: decoded bytes, or an error. *)
Fixpoint decode_pairs (src : list Z) : option (list Z) :=
  match src with
  | p :: q :: r =>
      match hex_val p, hex_val q with
      | Some a, Some b =>
          option_map (fun d => (a * 16 + b) :: d) (decode_pairs r)
      | _, _ => None
      end
  | [_] => Some []
  | [] => Some []
  end.

(** [hex.DecodeString]: on success, the backing array of the returned
    slice (its length is the slice's capacity) and the slice's length.
    Invalid bytes and an odd length are errors. *)
Definition DecodeString (s : list Z) : go_result (list Z * nat) :=
  let L := List.length s in
  match decode_pairs s with
  | None => GoErr "encoding/hex: invalid byte"
  | Some d =>
      if Nat.odd L then GoErr "encoding/hex: odd length hex string"
      else
        let cap := Z.to_nat (roundupsize (Z.of_nat L)) in
        GoOk (d ++ skipn (List.length d) s ++ repeat 0 (cap - L), List.length d)
  end.

Definition DDP_WAVEFORMAT_GUID : list Z :=
  [0xaf; 0x87; 0xfb; 0xa7; 0x02; 0x2d; 0xfb; 0x42;
   0xa4; 0xd4; 0x05; 0xcd; 0x93; 0x84; 0x3b; 0xdd].

Fixpoint bytes_eqb (a b : list Z) : bool :=
  match a, b with
  | [], [] => true
  | x :: a', y :: b' => (x =? y) && bytes_eqb a' b'
  | _, _ => false
  end.

(** extractDolbyDigitalPlusInfo on the slice [arr[:n]]. [info[6:22]] needs
    [22 <= cap(info)]; [info[22:]] needs [22 <= len(info)]; otherwise the
    slice expression panics. *)
Definition extractDolbyDigitalPlusInfo (arr : list Z) (n : nat) : go_result (list Z) :=
  if (List.length arr <? 22)%nat then GoPanic
  else if negb (bytes_eqb (firstn 16 (skipn 6 arr)) DDP_WAVEFORMAT_GUID) then
    GoErr "invalid DDP_WAVEFORMAT_GUID"
  else if (n <? 22)%nat then GoPanic
  else GoOk (skipn 22 (firstn n arr)).

Section Dec3.
(** [mp4.DecodeDec3] on a payload. *)
Variable Dec3Box : Type.
Variable DecodeDec3 : list Z -> go_result Dec3Box.

(** CodecPrivateDataToDec3Box. *)
Definition CodecPrivateDataToDec3Box (codecPrivateDataHex : string) : go_result Dec3Box :=
  match DecodeString (bytes_of_string codecPrivateDataHex) with
  | GoOk (arr, n) =>
      if (n <? 2)%nat then GoErr "invalid codecPrivateData length"
      else
        match extractDolbyDigitalPlusInfo arr n with
        | GoOk payload =>
            match DecodeDec3 payload with
            | GoOk box => GoOk box
            | GoErr _ => GoErr "failed to decode Dec3Box"
            | GoPanic => GoPanic
            end
        | GoErr m => GoErr m
        | GoPanic => GoPanic
        end
  | GoErr m => GoErr m
  | GoPanic => GoPanic
  end.

End Dec3.
End Hex.

(** * Initialisation segments (segment/base.go and the codec Generate methods).

    The moov box is modelled by what the claims read from it: its traks
    (the [Traks] list; [Moov.Trak] is the first one added), the trex
    entries of mvex and mvhd's next_track_ID. [InitSegment.AddEmptyTrack]
    of mp4ff numbers the new track [len(Traks) + 1], appends the trak and
    a trex for it, and sets next_track_ID to one more; the [Set*Descriptor]
    methods put the sample entry into the stsd of that trak. *)
Module Init.
Local Open Scope Z_scope.
Local Open Scope list_scope.
Local Open Scope string_scope.

Inductive sample_entry :=
| Avc1Entry (sps pps : list (list Z))
| Mp4aEntry (object_type sampling_frequency : Z)
| Ec3Entry (dec3_payload : list Z)
| StppEntry (namespace schema_location auxiliary_mime_types : string)
| EncryptedEntry (clear : sample_entry) (scheme : string) (kid : list Z).

Record trak := mkTrak {
  trak_id : Z;
  trak_media_type : string;
  trak_timescale : Z;
  trak_lang : string;
  trak_entry : option sample_entry }.

Record init_segment := mkInit {
  ftyp_major : string;
  ftyp_brands : list string;
  mvhd_next_track_id : Z;
  moov_traks : list trak;
  mvex_trex_ids : list Z;
  moov_pssh : list (list Z) }.

Definition trak_ids (i : init_segment) : list Z := map trak_id (moov_traks i).

(** [mp4.NewMP4Init], the ftyp, and an empty moov with mvhd and mvex
    ([CreateMvhd] starts next_track_ID at 2). *)
Definition empty_init (ftypBrands : list string) : init_segment :=
  mkInit "dash" ftypBrands 2 [] [] [].

(** [InitSegment.AddEmptyTrack]. *)
Definition AddEmptyTrack (timeScale : Z) (mediaType lang : string) (i : init_segment)
  : init_segment :=
  let trackID := Z.of_nat (List.length (moov_traks i)) + 1 in
  mkInit (ftyp_major i) (ftyp_brands i) (trackID + 1)
    (moov_traks i ++ [mkTrak trackID mediaType timeScale lang None])
    (mvex_trex_ids i ++ [trackID]) (moov_pssh i).

(** NewBaseInitSegment. *)
Definition NewBaseInitSegment (trackType lang : string) (timeScale : Z)
    (ftypBrands : list string) : init_segment :=
  AddEmptyTrack timeScale trackType lang (empty_init ftypBrands).

(** [init.Moov.Trak.Set*Descriptor(...)]: a nil [Moov.Trak] panics. *)
Definition set_trak_entry (e : sample_entry) (i : init_segment) : go_result init_segment :=
  match moov_traks i with
  | [] => GoPanic
  | t :: ts =>
      GoOk (mkInit (ftyp_major i) (ftyp_brands i) (mvhd_next_track_id i)
              (mkTrak (trak_id t) (trak_media_type t) (trak_timescale t) (trak_lang t)
                      (Some e) :: ts)
              (mvex_trex_ids i) (moov_pssh i))
  end.

(** [mp4.InitProtect] with scheme "cenc": each trak's sample entry is
    wrapped in its protected form, and the pssh boxes are added to moov. *)
Definition protect_trak (keyId : list Z) (t : trak) : trak :=
  mkTrak (trak_id t) (trak_media_type t) (trak_timescale t) (trak_lang t)
    (option_map (fun e => EncryptedEntry e "cenc" keyId) (trak_entry t)).

Definition InitProtect (keyId pssh : list Z) (i : init_segment) : init_segment :=
  mkInit (ftyp_major i) (ftyp_brands i) (mvhd_next_track_id i)
    (map (protect_trak keyId) (moov_traks i)) (mvex_trex_ids i)
    (moov_pssh i ++ [pssh]).

Section Generate.
(** mp4ff's [DecryptInit] result for a protected init segment. *)
Variable DecryptInfo : Type.
Variable empty_decrypt_info : DecryptInfo.
Variable DecryptInit : init_segment -> go_result DecryptInfo.

(** AddPrEncryption, for the init segment it protects. *)
Definition AddPrEncryption (i : init_segment) (key : option (list Z)) (keyId pssh : list Z)
  : init_segment * go_result DecryptInfo :=
  let i' := InitProtect keyId pssh i in
  (i', match key with None => GoOk empty_decrypt_info | Some _ => DecryptInit i' end).

(** The common shape of the AVC, AAC and EC-3 Generate methods: the sample
    entry obtained from the codec private data (or its error), the base
    init segment, the descriptor, and PlayReady protection when both the
    key id and the pssh are set. *)
Definition generate_av (trackType : string) (ftypBrands : list string)
    (entry : go_result sample_entry) (lang : string) (timeScale : Z)
    (key keyId pssh : option (list Z)) : go_result (init_segment * DecryptInfo) :=
  match entry with
  | GoErr m => GoErr m
  | GoPanic => GoPanic
  | GoOk e =>
      match set_trak_entry e (NewBaseInitSegment trackType lang timeScale ftypBrands) with
      | GoOk i =>
          match keyId, pssh with
          | Some kid, Some p =>
              let '(i', di) := AddPrEncryption i key kid p in
              match di with
              | GoOk d => GoOk (i', d)
              | GoErr m => GoErr m
              | GoPanic => GoPanic
              end
          | _, _ => GoOk (i, empty_decrypt_info)
          end
      | GoErr m => GoErr m
      | GoPanic => GoPanic
      end
  end.

Definition AVCInitSegment_Generate (entry : go_result sample_entry) :=
  generate_av "video" ["iso6"; "piff"; "avc1"] entry.

Definition AACInitSegment_Generate (entry : go_result sample_entry) :=
  generate_av "audio" ["iso6"; "piff"; "mp4a"] entry.

Definition De3InitSegment_Generate (entry : go_result sample_entry) :=
  generate_av "audio" ["iso6"; "piff"; "mp4a"] entry.

End Generate.

Definition stpp_namespace : string :=
  "http://www.w3.org/ns/ttml http://www.smpte-ra.org/schemas/2052-1/2010/smpte-tt http://www.w3.org/ns/ttml#metadata  http://www.w3.org/ns/ttml#parameter http://www.w3.org/ns/ttml#styling http://www.w3.org/2001/XMLSchema-instance http://www.smpte-ra.org/schemas/2052-1/2010/smpte-tt http://www.smpte-ra.org/schemas/2052-1/2010/smpte-tt.xsd".

(** STPPInitSegment.Generate. *)
Definition STPPInitSegment_Generate (lang : string) (timeScale : Z) : go_result init_segment :=
  let i := NewBaseInitSegment "audio" lang timeScale ["iso6"; "piff"] in
  let i := AddEmptyTrack timeScale "subtitle" lang i in
  set_trak_entry (StppEntry stpp_namespace "" "") i.

End Init.

(** * The Smooth Streaming to DASH conversion (transformers, models, utils). *)
Module Dash.
Local Open Scope string_scope.
Local Open Scope list_scope.
Local Open Scope Z_scope.

(** ASCII case mapping, as [strings.ToLower] and [strings.EqualFold] act on
    ASCII text. *)
Definition ascii_lower (c : ascii) : ascii :=
  let n := nat_of_ascii c in
  if (65 <=? n)%nat && (n <=? 90)%nat then ascii_of_nat (n + 32) else c.

Fixpoint ToLower (s : string) : string :=
  match s with
  | EmptyString => EmptyString
  | String c r => String (ascii_lower c) (ToLower r)
  end.

Definition EqualFold (a b : string) : bool := String.eqb (ToLower a) (ToLower b).

(** [mp4.UUIDPlayReady] and its 16 bytes. *)
Definition UUIDPlayReady : string := "9a04f079-9840-4286-ab92-e65be0885f95".
Definition playready_system_id : list Z :=
  [0x9a; 0x04; 0xf0; 0x79; 0x98; 0x40; 0x42; 0x86;
   0xab; 0x92; 0xe6; 0x5b; 0xe0; 0x88; 0x5f; 0x95].

(** [base64.StdEncoding.EncodeToString]. *)
Definition b64_char (v : Z) : Z :=
  if v <? 26 then 65 + v
  else if v <? 52 then 97 + (v - 26)
  else if v <? 62 then 48 + (v - 52)
  else if v =? 62 then 43 else 47.

Fixpoint b64_encode (s : list Z) : list Z :=
  match s with
  | a :: b :: c :: r =>
      let w := a * 65536 + b * 256 + c in
      b64_char (w / 262144) :: b64_char ((w / 4096) mod 64)
        :: b64_char ((w / 64) mod 64) :: b64_char (w mod 64) :: b64_encode r
  | [a; b] =>
      let w := a * 65536 + b * 256 in
      [b64_char (w / 262144); b64_char ((w / 4096) mod 64); b64_char ((w / 64) mod 64); 61]
  | [a] =>
      let w := a * 65536 in
      [b64_char (w / 262144); b64_char ((w / 4096) mod 64); 61; 61]
  | [] => []
  end.

Definition string_of_bytes (l : list Z) : string :=
  fold_right (fun b s => String (ascii_of_nat (Z.to_nat b)) s) EmptyString l.

Definition be32 (n : Z) : list Z :=
  [Z.shiftr n 24 mod 256; Z.shiftr n 16 mod 256; Z.shiftr n 8 mod 256; n mod 256].

(** [PsshBox.Encode] for a version 0 box: size, type, version and flags,
    SystemID, data size, data. *)
Definition pssh_box_encode (systemID data : list Z) : list Z :=
  let size := 8 + 4 + 16 + 4 + Z.of_nat (List.length data) in
  be32 size ++ bytes_of_string "pssh" ++ [0; 0; 0; 0] ++ systemID
  ++ be32 (Z.of_nat (List.length data)) ++ data.

Record SmoothProtectionHeader := mkProtectionHeader {
  SystemID : string;
  CustomData : string }.

(** GeneratePsshData for a present header. *)
Definition GeneratePsshData (ph : SmoothProtectionHeader) : go_result string :=
  match PlayReady.b64_decode (bytes_of_string (CustomData ph)) with
  | None => GoErr "illegal base64 data"
  | Some customDataDecoded =>
      GoOk (string_of_bytes (b64_encode (pssh_box_encode playready_system_id customDataDecoded)))
  end.

(** [bytes.Index] of a separator: the first position where it starts. *)
Fixpoint index_of (sep s : list Z) : option nat :=
  if prefixb sep s then Some O
  else match s with
       | [] => None
       | _ :: r => option_map S (index_of sep r)
       end.

(** [bytes.SplitN(s, sep, 3)] for a non-empty separator. *)
Definition SplitN3 (s sep : list Z) : list (list Z) :=
  let n := List.length sep in
  match index_of sep s with
  | None => [s]
  | Some i =>
      let rest := skipn (i + n) s in
      match index_of sep rest with
      | None => [firstn i s; rest]
      | Some j => [firstn i s; firstn j rest; skipn (j + n) rest]
      end
  end.

(** video.CodecPrivateDataToSPSPPS: the SPS and PPS NAL units. *)
Definition CodecPrivateDataToSPSPPS (codecPrivateDataHex : string)
  : go_result (list (list Z) * list (list Z)) :=
  match Hex.DecodeString (bytes_of_string codecPrivateDataHex) with
  | GoOk (arr, n) =>
      match SplitN3 (firstn n arr) [0; 0; 0; 1] with
      | [_; sps; pps] => GoOk ([sps], [pps])
      | _ => GoErr "invalid codecPrivateDataHex format"
      end
  | GoErr m => GoErr ("failed to decode codecPrivateDataHex: " ++ m)
  | GoPanic => GoPanic
  end.

(** [strings.NewReplacer("{bitrate}", "$Bandwidth$", "{start time}", "$Time$").Replace]. *)
Fixpoint convertSmoothToMpdTag_aux (fuel : nat) (s : string) : string :=
  match fuel with
  | O => s
  | S k =>
      match s with
      | EmptyString => EmptyString
      | String c r =>
          if String.prefix "{bitrate}" s then
            "$Bandwidth$" ++ convertSmoothToMpdTag_aux k (substring 9 (String.length s) s)
          else if String.prefix "{start time}" s then
            "$Time$" ++ convertSmoothToMpdTag_aux k (substring 12 (String.length s) s)
          else String c (convertSmoothToMpdTag_aux k r)
      end
  end.

Definition convertSmoothToMpdTag (path : string) : string :=
  convertSmoothToMpdTag_aux (String.length path) path.

Record ChunkInfo := mkChunkInfo { chunk_duration : Z; chunk_start_time : Z }.

Record QualityLevel := mkQualityLevel {
  ql_Index : Z;
  ql_Bitrate : Z;
  ql_CodecPrivateData : string;
  ql_FourCC : string;
  ql_MaxWidth : Z;
  ql_MaxHeight : Z;
  ql_Channels : Z;
  ql_SamplingRate : Z }.

Record StreamIndex := mkStreamIndex {
  si_Type : string;
  si_Name : string;
  si_Language : string;
  si_Url : string;
  si_QualityLevels : list QualityLevel;
  si_ChunkInfos : list ChunkInfo }.

Record SmoothStream := mkSmoothStream {
  ss_Duration : Z;
  ss_TimeScale : Z;
  ss_IsLive : bool;
  ss_DVRWindowLength : Z;
  ss_Protection : list SmoothProtectionHeader;
  ss_StreamIndexes : list StreamIndex }.

(** GetProtectionHeaderForSystemId. *)
Definition GetProtectionHeaderForSystemId (ss : SmoothStream) (systemId : string)
  : option SmoothProtectionHeader :=
  find (fun ph => EqualFold (SystemID ph) systemId) (ss_Protection ss).

(** GetMimeType. *)
Definition GetMimeType (si : StreamIndex) : string :=
  if String.eqb (si_Type si) "video" then "video/mp4"
  else if String.eqb (si_Type si) "audio" then "audio/mp4"
  else if String.eqb (si_Type si) "text" then "application/mp4"
  else "application/octet-stream".

(** The stream name used in representation ids and handler paths. *)
Definition name_or_type (si : StreamIndex) : string :=
  if String.eqb (si_Name si) "" then si_Type si else si_Name si.

(** [fmt.Sprintf("%s_%d", streamIndexName, qualityLevel.Index)]. *)
Definition rep_id (name : string) (index : Z) : string := name ++ "_" ++ go_itoa index.

Record Pro := mkPro { pro_xmlns : string; pro_data : string }.
Record Pssh := mkPssh { pssh_xmlns : string; pssh_data : string }.

Record Descriptor := mkDescriptor {
  desc_SchemeIDURI : string;
  desc_Value : string;
  desc_Pro : option Pro;
  desc_Pssh : option Pssh }.

Record Representation := mkRepresentation {
  rep_ID : string;
  rep_Bandwidth : Z;
  rep_Width : Z;
  rep_Height : Z;
  rep_AudioSamplingRate : string;
  rep_Codecs : string;
  rep_ScanType : string }.

Record SegmentTimelineS := mkS { s_T : Z; s_D : Z }.

Record SegmentTemplate := mkSegmentTemplate {
  st_Timescale : Z;
  st_Media : string;
  st_Initialization : string;
  st_Timeline : list SegmentTimelineS }.

Record AdaptationSet := mkAdaptationSet {
  as_MimeType : string;
  as_ContentType : string;
  as_ID : string;
  as_Lang : string;
  as_SegmentTemplate : SegmentTemplate;
  as_Representations : list Representation;
  as_AudioChannelConfiguration : option string;
  as_ContentProtections : list Descriptor }.

(** The MPD fields the conversion sets; an empty namespace string is an
    attribute [omitempty] leaves out. *)
Record MPD := mkMPD {
  mpd_Type : string;
  mpd_XMLNSCommonEncryption : string;
  mpd_XMLNSPlayReady : string;
  mpd_PublishTime : string;
  mpd_MediaPresentationDuration : option Z;
  mpd_MinimumUpdatePeriod : option Z;
  mpd_TimeShiftBufferDepth : option Z;
  mpd_Title : string;
  mpd_AdaptationSets : list AdaptationSet }.

(** The segment timeline of a stream index: [t] only on the first entry. *)
Definition timeline (cs : list ChunkInfo) : list SegmentTimelineS :=
  match cs with
  | [] => []
  | c :: r => mkS (chunk_start_time c) (chunk_duration c)
              :: map (fun c => mkS 0 (chunk_duration c)) r
  end.

(** The single ContentProtection element built for a PlayReady header. *)
Definition playready_descriptor (ph : SmoothProtectionHeader) (psshData : string)
  : Descriptor :=
  mkDescriptor ("urn:uuid:" ++ ToLower (SystemID ph)) "MSPR 2.0"
    (Some (mkPro "urn:microsoft:playready" (CustomData ph)))
    (Some (mkPssh "urn:mpeg:cenc:2013" psshData)).

(** [!hasKeys && playreadyProtectionData != nil]. *)
Definition protect (hasKeys : bool) (pr : option SmoothProtectionHeader) : bool :=
  negb hasKeys && match pr with Some _ => true | None => false end.

Section Convert.
(** [avc.ParseSPSNALUnit] followed by [avc.CodecString("avc1", sps)]. *)
Variable avc_codec_string : list Z -> go_result string.

(** One iteration of the quality level loop; [audioChannels] is the
    variable the loop carries. *)
Definition representation_of (si : StreamIndex) (streamIndexName : string)
    (audioChannels : Z) (ql : QualityLevel) : go_result (Representation * Z) :=
  let id := rep_id streamIndexName (ql_Index ql) in
  if String.eqb (si_Type si) "video" then
    if String.eqb (ql_CodecPrivateData ql) "" then
      GoErr ("CodecPrivateData is empty for quality level " ++ go_itoa (ql_Index ql))
    else
      match CodecPrivateDataToSPSPPS (ql_CodecPrivateData ql) with
      | GoErr m => GoErr ("failed to parse CodecPrivateData for quality level "
                          ++ go_itoa (ql_Index ql) ++ ": " ++ m)
      | GoPanic => GoPanic
      | GoOk (spsNALUs, _) =>
          Mp4.bind (avc_codec_string (nth 0 spsNALUs [])) (fun codecs =>
          GoOk (mkRepresentation id (ql_Bitrate ql) (ql_MaxWidth ql) (ql_MaxHeight ql)
                  "" codecs "progressive", audioChannels))
      end
  else if String.eqb (si_Type si) "audio" then
    let ch := if 0 <? ql_Channels ql then ql_Channels ql else audioChannels in
    let codecs := if String.eqb (ql_FourCC ql) "EC-3" then "ec-3" else "mp4a.40.2" in
    GoOk (mkRepresentation id (ql_Bitrate ql) 0 0 (go_itoa (ql_SamplingRate ql)) codecs "", ch)
  else if String.eqb (si_Type si) "text" then
    GoOk (mkRepresentation id (ql_Bitrate ql) 0 0 "" "stpp" "", audioChannels)
  else GoOk (mkRepresentation id (ql_Bitrate ql) 0 0 "" "" "", audioChannels).

Fixpoint representations_of (si : StreamIndex) (streamIndexName : string)
    (audioChannels : Z) (qls : list QualityLevel) : go_result (list Representation * Z) :=
  match qls with
  | [] => GoOk ([], audioChannels)
  | ql :: r =>
      Mp4.bind (representation_of si streamIndexName audioChannels ql) (fun '(rep, ch) =>
      Mp4.bind (representations_of si streamIndexName ch r) (fun '(reps, ch') =>
      GoOk (rep :: reps, ch')))
  end.

(** The body of the stream index loop: the adaptation set it appends, or
    None when it reaches [continue]. *)
Definition adaptation_set_of (ss : SmoothStream) (hasKeys allowSubs : bool)
    (pr : option SmoothProtectionHeader) (psshData : string) (index : Z) (si : StreamIndex)
  : go_result (option AdaptationSet) :=
  let streamIndexName := name_or_type si in
  let segmentTemplate :=
    mkSegmentTemplate (ss_TimeScale ss)
      ("$RepresentationID$/$Time$/" ++ convertSmoothToMpdTag (si_Url si))
      "$RepresentationID$/init.mp4" (timeline (si_ChunkInfos si)) in
  Mp4.bind (representations_of si streamIndexName 2 (si_QualityLevels si))
    (fun '(reps, audioChannels) =>
  let cps := match pr with
             | Some ph => if protect hasKeys pr then [playready_descriptor ph psshData] else []
             | None => []
             end in
  let mk acc cp := mkAdaptationSet (GetMimeType si) (si_Type si) (go_itoa index)
                     (si_Language si) segmentTemplate reps acc cp in
  if String.eqb (si_Type si) "video" then GoOk (Some (mk None cps))
  else if String.eqb (si_Type si) "audio" then
    GoOk (Some (mk (Some (go_itoa audioChannels)) cps))
  else if String.eqb (si_Type si) "text" then
    if negb allowSubs then GoOk None else GoOk (Some (mk None []))
  else GoOk (Some (mk None []))).

Fixpoint adaptation_sets_of (ss : SmoothStream) (hasKeys allowSubs : bool)
    (pr : option SmoothProtectionHeader) (psshData : string) (index : Z)
    (sis : list StreamIndex) : go_result (list AdaptationSet) :=
  match sis with
  | [] => GoOk []
  | si :: r =>
      Mp4.bind (adaptation_set_of ss hasKeys allowSubs pr psshData index si) (fun o =>
      Mp4.bind (adaptation_sets_of ss hasKeys allowSubs pr psshData (index + 1) r) (fun sets =>
      GoOk (match o with Some a => a :: sets | None => sets end)))
  end.

(** SmoothToDashManifest; [now] is the formatted [time.Now()]. *)
Definition SmoothToDashManifest (ss : SmoothStream) (hasKeys allowSubs : bool)
    (channelName now : string) : go_result MPD :=
  let pr := GetProtectionHeaderForSystemId ss UUIDPlayReady in
  Mp4.bind (match pr with Some ph => GeneratePsshData ph | None => GoOk "" end)
    (fun psshData =>
  Mp4.bind (adaptation_sets_of ss hasKeys allowSubs pr psshData 0 (ss_StreamIndexes ss))
    (fun sets =>
  let live := ss_IsLive ss in
  GoOk (mkMPD (if live then "dynamic" else "static")
          (if protect hasKeys pr then "urn:mpeg:cenc:2013" else "")
          (if protect hasKeys pr then "urn:microsoft:playready" else "")
          now
          (if negb live && (0 <? ss_Duration ss) then Some (ss_Duration ss / 10000000) else None)
          (if live then Some 2 else None)
          (if live && (0 <? ss_DVRWindowLength ss)
           then Some (Z.quot (ss_DVRWindowLength ss) 10000000) else None)
          channelName sets))).

End Convert.
End Dash.

(** * Representation ids in the init and segment handlers. *)
Module Handlers.
Local Open Scope string_scope.
Local Open Scope Z_scope.

(** [strings.LastIndex(s, "_")], None for -1. *)
Fixpoint LastIndexUnderscore (s : string) : option nat :=
  match s with
  | EmptyString => None
  | String c r =>
      match LastIndexUnderscore r with
      | Some i => Some (S i)
      | None => if Ascii.eqb c "_" then Some O else None
      end
  end.

Fixpoint digits_of (acc : Z) (s : string) : option Z :=
  match s with
  | EmptyString => Some acc
  | String c r =>
      let n := Z.of_nat (nat_of_ascii c) in
      if (48 <=? n) && (n <=? 57) then digits_of (acc * 10 + (n - 48)) r else None
  end.

(** [strconv.Atoi] for a 64-bit int: an optional sign and at least one
    decimal digit, in range. *)
Definition Atoi (s : string) : option Z :=
  let '(neg, body) :=
    match s with
    | String "-" r => (true, r)
    | String "+" r => (false, r)
    | _ => (false, s)
    end in
  match body with
  | EmptyString => None
  | _ =>
      match digits_of 0 body with
      | None => None
      | Some v =>
          let v := if neg then - v else v in
          if (- 2 ^ 63 <=? v) && (v <? 2 ^ 63) then Some v else None
      end
  end.

(** The parsing of the [qualityId] path value: the stream name-or-type and
    the quality level index, or None where the handler answers 400. *)
Definition split_quality_id (qualityId : string) : option (string * Z) :=
  match LastIndexUnderscore qualityId with
  | None => None
  | Some lastUnderscore =>
      if (lastUnderscore =? String.length qualityId - 1)%nat then None
      else
        let streamIndexStr := substring 0 lastUnderscore qualityId in
        let qualityLevelIndexStr :=
          substring (lastUnderscore + 1) (String.length qualityId - (lastUnderscore + 1))
            qualityId in
        match Atoi qualityLevelIndexStr with
        | Some qualityLevelIndex => Some (streamIndexStr, qualityLevelIndex)
        | None => None
        end
  end.

End Handlers.

(** * The on-disk request cache (internal/utils/client.go), for one URL.

    Concurrent DoRequest calls are goroutines whose atomic steps are
    interleaved by a scheduler. A step is one access to shared state:
    [cache.Load], the creation of an entry with [cache.Store], the upstream
    fetch with the file write and the closing of [ready], and the read of
    the cached file once [ready] is closed. All steps happen within one
    TTL window, so [time.Since(entry.timestamp) >= cacheDuration] is false
    and the expired branch is not taken; the upstream answers 200, so the
    error paths are not taken either. *)
Module Cache.

Inductive goroutine :=
| Start                   (** before [cache.Load(url)] *)
| Missed                  (** Load found nothing: about to call fetchAndCacheNewResponse *)
| Fetching (e : nat)      (** entry [e] stored: about to request the URL *)
| Waiting (e : nat)       (** Load found entry [e]: blocked on [<-entry.ready] *)
| Done (body : Z)         (** returned a response whose body is [body] *)
| Failed.                 (** readResponseFromFile could not open the file *)

Record state := mkState {
  st_cache : option nat;        (** the entry stored under the URL *)
  st_ready : list bool;         (** per entry: is [ready] closed *)
  st_file : option Z;           (** the cache file's content *)
  st_fetches : nat;             (** upstream requests made so far *)
  st_goroutines : list goroutine }.

Definition init_state (n : nat) : state := mkState None [] None O (repeat Start n).

Definition set_goroutine (st : state) (i : nat) (g : goroutine) : list goroutine :=
  firstn i (st_goroutines st) ++ [g] ++ skipn (S i) (st_goroutines st).

Section Steps.
(** The body the upstream returns to its [n]-th request. *)
Variable upstream : nat -> Z.

(** One step of goroutine [i]; None when it is blocked or finished. *)
Definition step (st : state) (i : nat) : option state :=
  match nth_error (st_goroutines st) i with
  | Some Start =>
      match st_cache st with
      | None => Some (mkState (st_cache st) (st_ready st) (st_file st) (st_fetches st)
                              (set_goroutine st i Missed))
      | Some e => Some (mkState (st_cache st) (st_ready st) (st_file st) (st_fetches st)
                                (set_goroutine st i (Waiting e)))
      end
  | Some Missed =>
      (** a new entry and [cache.Store(url, entry)] *)
      let e := List.length (st_ready st) in
      Some (mkState (Some e) (st_ready st ++ [false]) (st_file st) (st_fetches st)
                    (set_goroutine st i (Fetching e)))
  | Some (Fetching e) =>
      (** [GetProxyClient().Do(req)], [io.Copy] into the file, the response
          read from it, and the deferred [close(entry.ready)] *)
      let body := upstream (st_fetches st) in
      Some (mkState (st_cache st)
                    (firstn e (st_ready st) ++ [true] ++ skipn (S e) (st_ready st))
                    (Some body) (S (st_fetches st)) (set_goroutine st i (Done body)))
  | Some (Waiting e) =>
      if nth e (st_ready st) false then
        match st_file st with
        | Some body => Some (mkState (st_cache st) (st_ready st) (st_file st) (st_fetches st)
                                     (set_goroutine st i (Done body)))
        | None => Some (mkState (st_cache st) (st_ready st) (st_file st) (st_fetches st)
                                (set_goroutine st i Failed))
        end
      else None
  | _ => None
  end.

(** Running a schedule: the goroutine that takes each step. *)
Fixpoint run (sched : list nat) (st : state) : option state :=
  match sched with
  | [] => Some st
  | i :: r => match step st i with Some st' => run r st' | None => None end
  end.

End Steps.
End Cache.

(** * A tokenizer for plain XML documents, used to run examples.

    It reads start tags with double-quoted attributes, end tags and text
    without entity references, and yields the tokens [Decoder.RawToken] of
    encoding/xml yields for such a document (a name [a:b] splits into its
    space and local parts); any other input gives None. *)
Module XmlLex.
Import TtmlXml.
Local Open Scope char_scope.
Local Open Scope list_scope.

Definition is_name_char (c : ascii) : bool :=
  let n := nat_of_ascii c in
  ((97 <=? n) && (n <=? 122))%nat || ((65 <=? n) && (n <=? 90))%nat
  || ((48 <=? n) && (n <=? 57))%nat || Ascii.eqb c "_" || Ascii.eqb c "-"
  || Ascii.eqb c "." || Ascii.eqb c ":".

Definition is_space (c : ascii) : bool :=
  Ascii.eqb c " " || Ascii.eqb c (ascii_of_nat 10) || Ascii.eqb c (ascii_of_nat 9)
  || Ascii.eqb c (ascii_of_nat 13).

Fixpoint skip_spaces (l : list ascii) : list ascii :=
  match l with
  | c :: r => if is_space c then skip_spaces r else l
  | [] => []
  end.

(** A name and its split at the colon. *)
Definition read_name (l : list ascii) : option (xname * list ascii) :=
  let '(nm, rest) := Ttml.take_while is_name_char l in
  match nm with
  | [] => None
  | _ =>
      let '(sp, lc) := Ttml.take_while (fun c => negb (Ascii.eqb c ":")) nm in
      match lc with
      | [] => Some (mkName EmptyString (string_of_list_ascii nm), rest)
      | _ :: lc' =>
          if existsb (Ascii.eqb ":") lc' then None
          else if (Nat.eqb (List.length sp) 0 || Nat.eqb (List.length lc') 0) then
            Some (mkName EmptyString (string_of_list_ascii nm), rest)
          else Some (mkName (string_of_list_ascii sp) (string_of_list_ascii lc'), rest)
      end
  end.

(** The attributes of a start tag, up to [>] (false) or [/>] (true). *)
Fixpoint read_attrs (fuel : nat) (l : list ascii) : option (list xattr * bool * list ascii) :=
  match fuel with
  | O => None
  | S f =>
      match skip_spaces l with
      | ">" :: r => Some ([], false, r)
      | "/" :: ">" :: r => Some ([], true, r)
      | l' =>
          match read_name l' with
          | None => None
          | Some (n, r) =>
              match skip_spaces r with
              | "=" :: r' =>
                  match skip_spaces r' with
                  | c :: r'' =>
                      if Ascii.eqb c dq_char then
                        let '(v, r3) := Ttml.take_while (fun d => negb (Ascii.eqb d dq_char)) r'' in
                        match r3 with
                        | _ :: r4 =>
                            if existsb (fun d => Ascii.eqb d "&" || Ascii.eqb d "<") v then None
                            else
                              option_map (fun '(atts, closed, r5) =>
                                            (mkAttr n (string_of_list_ascii v) :: atts, closed, r5))
                                (read_attrs f r4)
                        | [] => None
                        end
                      else None
                  | [] => None
                  end
              | _ => None
              end
          end
      end
  end.

Fixpoint lex (fuel : nat) (l : list ascii) : option (list xtoken) :=
  match fuel with
  | O => None
  | S f =>
      match l with
      | [] => Some []
      | "<" :: "/" :: r =>
          match read_name r with
          | Some (n, r') =>
              match skip_spaces r' with
              | ">" :: r'' => option_map (cons (EndElement n)) (lex f r'')
              | _ => None
              end
          | None => None
          end
      | "<" :: r =>
          match read_name r with
          | Some (n, r') =>
              match read_attrs (List.length r') r' with
              | Some (atts, false, r'') => option_map (cons (StartElement n atts)) (lex f r'')
              | Some (atts, true, r'') =>
                  option_map (fun ts => StartElement n atts :: EndElement n :: ts) (lex f r'')
              | None => None
              end
          | None => None
          end
      | _ =>
          let '(txt, r) := Ttml.take_while (fun d => negb (Ascii.eqb d "<")) l in
          if existsb (Ascii.eqb "&") txt then None
          else option_map (cons (CharData (string_of_list_ascii txt))) (lex f r)
      end
  end.

Definition raw_tokens (s : string) : option (list xtoken) :=
  lex (S (String.length s)) (list_ascii_of_string s).

End XmlLex.

(** * Channel configuration (config package): keys and the channel map *)
Module Config.
Local Open Scope string_scope.
Local Open Scope list_scope.
Local Open Scope Z_scope.

(** [strings.Split(s, sep)] for a one-byte separator, on the bytes of
    [s]: the pieces between the separators, [[""]] for an empty [s]. *)
Fixpoint split_bytes (sep : Z) (s : list Z) : list (list Z) :=
  match s with
  | [] => [[]]
  | c :: r =>
      match split_bytes sep r with
      | p :: ps => if c =? sep then [] :: p :: ps else (c :: p) :: ps
      | [] => []
      end
  end.

(** The fields of Channel the key and channel lookups read; [ch_Keys] is
    None for a nil slice (no [keys] in the JSON, or [null]). *)
Record Channel := mkChannel {
  ch_Id : string;
  ch_Url : string;
  ch_Keys : option (list string) }.

(** [range c.Keys]: a nil slice has no elements. *)
Definition keys_of (c : Channel) : list string :=
  match ch_Keys c with Some l => l | None => [] end.

(** [hex.DecodeString(part)] followed by [err != nil || len(b) != 16]:
    the 16 decoded bytes, or None where parseKey returns an error. *)
Definition decode_key_part (part : list Z) : option (list Z) :=
  match Hex.DecodeString part with
  | GoOk (arr, n) => if (n =? 16)%nat then Some (firstn n arr) else None
  | _ => None
  end.

(** parseKey: the key id and the key data of a ["keyId:keyData"] entry. *)
Definition parseKey (key : string) : go_result (list Z * list Z) :=
  if String.eqb key "" then GoErr "key cannot be empty"
  else
    match split_bytes 58 (bytes_of_string key) with
    | [p0; p1] =>
        match decode_key_part p0 with
        | None => GoErr "invalid key ID, must be a 16-byte hex string"
        | Some keyID =>
            match decode_key_part p1 with
            | None => GoErr "invalid key data, must be a 16-byte hex string"
            | Some keyData => GoOk (keyID, keyData)
            end
        end
    | _ => GoErr "invalid key format, expected 'keyId:keyData'"
    end.

(** The loop of [Channel.GetKey] over the raw key entries. *)
Fixpoint GetKey_aux (keys : list string) (keyID : list Z) : go_result (list Z) :=
  match keys with
  | [] => GoErr "key not found"
  | rawKey :: r =>
      match parseKey rawKey with
      | GoErr e => GoErr e
      | GoPanic => GoPanic
      | GoOk (kid, parsedKey) =>
          if Hex.bytes_eqb kid keyID then GoOk parsedKey else GetKey_aux r keyID
      end
  end.

(** [Channel.GetKey]. *)
Definition GetKey (c : Channel) (keyID : list Z) : go_result (list Z) :=
  GetKey_aux (keys_of c) keyID.

(** A [map[string]Channel] as a lookup function, and its assignment. *)
Definition channel_map := string -> option Channel.

Definition map_assign (m : channel_map) (k : string) (v : Channel) : channel_map :=
  fun k' => if String.eqb k' k then Some v else m k'.

(** The channelMap that reloadConfig builds. [channels] lists the
    [Channels] map in the order the [range] visits it in this run (Go
    does not fix that order). *)
Definition channelMap (channels : list (string * list Channel)) : channel_map :=
  fold_left (fun m '(groupName, channelList) =>
               fold_left (fun m ch => map_assign m (groupName ++ "/" ++ ch_Id ch)%string ch)
                 channelList m)
    channels (fun _ => None).

(** [Config.GetChannel]. *)
Definition GetChannel (channelMap : channel_map) (group id : string) : option Channel :=
  channelMap (group ++ "/" ++ id)%string.

End Config.

(** * The no_proxy rules (internal/utils/proxy.go) *)
Module Proxy.
Local Open Scope list_scope.
Local Open Scope Z_scope.

(** The UTF-8 encodings of the runes [unicode.IsSpace] accepts: U+0009 to
    U+000D, U+0020, U+0085, U+00A0, U+1680, U+2000 to U+200A, U+2028,
    U+2029, U+202F, U+205F and U+3000. *)
Definition space_seqs : list (list Z) :=
  [[9]; [10]; [11]; [12]; [13]; [32]; [194; 133]; [194; 160]; [225; 154; 128]]
  ++ map (fun b => [226; 128; b]) [128; 129; 130; 131; 132; 133; 134; 135; 136; 137; 138]
  ++ [[226; 128; 168]; [226; 128; 169]; [226; 128; 175]; [226; 129; 159]; [227; 128; 128]].

Definition suffixb (p s : list Z) : bool := prefixb (rev p) (rev s).

(** The byte length of the space rune [s] starts with, if any. *)
Definition space_prefix (s : list Z) : option nat :=
  option_map (@length Z) (find (fun p => prefixb p s) space_seqs).

(** The byte length of the space rune [s] ends with, if any. *)
Definition space_suffix (s : list Z) : option nat :=
  option_map (@length Z) (find (fun p => suffixb p s) space_seqs).

Fixpoint trim_left (fuel : nat) (s : list Z) : list Z :=
  match fuel with
  | O => s
  | S f => match space_prefix s with
           | Some k => trim_left f (skipn k s)
           | None => s
           end
  end.

Fixpoint trim_right (fuel : nat) (s : list Z) : list Z :=
  match fuel with
  | O => s
  | S f => match space_suffix s with
           | Some k => trim_right f (firstn (length s - k) s)
           | None => s
           end
  end.

(** [strings.TrimSpace]: its ASCII loops and its fallback to
    [TrimFunc(s, unicode.IsSpace)] both remove the leading and the trailing
    space runes. A rune decodes as a space exactly when its bytes are one
    of [space_seqs]; each removal shortens [s], so [length s] steps are
    enough. *)
Definition TrimSpace (s : list Z) : list Z :=
  let l := trim_left (length s) s in trim_right (length l) l.

(** [filepath.SplitList] on Unix: no element for an empty path, otherwise
    [strings.Split(path, ":")]. *)
Definition SplitList (path : list Z) : list (list Z) :=
  match path with
  | [] => []
  | _ => Config.split_bytes 58 path
  end.

(** shouldBypassProxy, on the bytes of [host] and [noProxy]. *)
Definition shouldBypassProxy (host noProxy : list Z) : bool :=
  existsb (fun np0 =>
             let np := TrimSpace np0 in
             match np with
             | [] => false
             | _ => Hex.bytes_eqb np [42] || Hex.bytes_eqb host np
                    || (prefixb [46] np && suffixb np host)
             end)
    (SplitList noProxy).

End Proxy.

(** * Stream and quality level lookups (models) and ConditionalUint *)
Module Models.
Local Open Scope string_scope.
Local Open Scope list_scope.
Local Open Scope Z_scope.

(** [SmoothStream.GetStreamIndexByNameOrType]: a stream index with that
    name, else one with that type, the first one in both loops. *)
Definition GetStreamIndexByNameOrType (ss : Dash.SmoothStream) (name : string)
  : go_result Dash.StreamIndex :=
  match find (fun si => String.eqb (Dash.si_Name si) name) (Dash.ss_StreamIndexes ss) with
  | Some si => GoOk si
  | None =>
      match find (fun si => String.eqb (Dash.si_Type si) name) (Dash.ss_StreamIndexes ss) with
      | Some si => GoOk si
      | None => GoErr "no stream index found with the specified name"
      end
  end.

(** [StreamIndex.GetQualityLevelByIndex]. *)
Definition GetQualityLevelByIndex (si : Dash.StreamIndex) (index : Z)
  : go_result Dash.QualityLevel :=
  match find (fun ql => Dash.ql_Index ql =? index) (Dash.si_QualityLevels si) with
  | Some ql => GoOk ql
  | None => GoErr "no quality level found with the specified index"
  end.

(** The lookups InitHandler and SegmentHandler make from the [qualityId]
    path value: its split, then the stream index, then the quality
    level. The two 400 answers of the split are one error here. *)
Definition resolve_quality_id (ss : Dash.SmoothStream) (qualityId : string)
  : go_result (Dash.StreamIndex * Dash.QualityLevel) :=
  match Handlers.split_quality_id qualityId with
  | None => GoErr "Invalid quality ID format"
  | Some (streamIndexStr, qualityLevelIndex) =>
      Mp4.bind (GetStreamIndexByNameOrType ss streamIndexStr) (fun si =>
      Mp4.bind (GetQualityLevelByIndex si qualityLevelIndex) (fun ql =>
      GoOk (si, ql)))
  end.

(** ConditionalUint: the two optional pointers [U] and [B]. *)
Record ConditionalUint := mkConditionalUint {
  cu_U : option Z;
  cu_B : option bool }.

(** [strconv.FormatBool]. *)
Definition FormatBool (b : bool) : string := if b then "true" else "false".

(** [ConditionalUint.MarshalXMLAttr]: the attribute value, or None for the
    empty [xml.Attr{}], which the encoder leaves out. [FormatUint(u, 10)]
    of a uint64 is its decimal digits. *)
Definition MarshalXMLAttr (c : ConditionalUint) : option string :=
  match cu_U c with
  | Some u => Some (dec_digits u)
  | None =>
      match cu_B c with
      | Some b => Some (FormatBool b)
      | None => None
      end
  end.

(** [strconv.ParseUint(s, 10, 64)]: one or more decimal digits, below
    2^64. *)
Definition ParseUint (s : string) : option Z :=
  match s with
  | EmptyString => None
  | _ =>
      match Handlers.digits_of 0 s with
      | Some v => if v <? 2 ^ 64 then Some v else None
      | None => None
      end
  end.

(** [strconv.ParseBool]. *)
Definition ParseBool (s : string) : option bool :=
  if existsb (String.eqb s) ["1"; "t"; "T"; "TRUE"; "true"; "True"] then Some true
  else if existsb (String.eqb s) ["0"; "f"; "F"; "FALSE"; "false"; "False"] then Some false
  else None.

(** [ConditionalUint.UnmarshalXMLAttr] on the receiver [c]: the updated
    receiver, or the error. *)
Definition UnmarshalXMLAttr (c : ConditionalUint) (value : string)
  : go_result ConditionalUint :=
  match ParseUint value with
  | Some u => GoOk (mkConditionalUint (Some u) (cu_B c))
  | None =>
      match ParseBool value with
      | Some b => GoOk (mkConditionalUint (cu_U c) (Some b))
      | None => GoErr "ConditionalUint: can't UnmarshalXMLAttr"
      end
  end.

End Models.

(** * PlayReady key resolution (internal/utils and the handlers) *)
Module KeyInfo.
Local Open Scope string_scope.
Local Open Scope list_scope.
Local Open Scope Z_scope.

(** TrimNullBytes: [bytes.TrimRight(data, "\x00")], the bytes without
    their trailing zero bytes. *)
Fixpoint TrimNullBytes (data : list Z) : list Z :=
  match data with
  | [] => []
  | b :: r =>
      match TrimNullBytes r with
      | [] => if b =? 0 then [] else [b]
      | t => b :: t
      end
  end.

Definition is_playready (ph : Dash.SmoothProtectionHeader) : bool :=
  String.eqb (Dash.ToLower (Dash.SystemID ph)) Dash.UUIDPlayReady.

(** The four results of ExtractKeyInfo (None is a nil slice or error),
    or a panic. *)
Inductive key_info_result :=
| KeyInfoRet (keyId key pssh : option (list Z)) (err : option string)
| KeyInfoPanic.

(** The loop of ExtractKeyInfo: the first PlayReady header, then [break]. *)
Fixpoint eki_loop (protections : list Dash.SmoothProtectionHeader)
  : go_result (option (list Z) * option (list Z)) :=
  match protections with
  | [] => GoOk (None, None)
  | prot :: r =>
      if is_playready prot then
        match PlayReady.b64_decode (bytes_of_string (Dash.CustomData prot)) with
        | None => GoErr "error decoding PSSH"
        | Some pssh =>
            let pssh := TrimNullBytes pssh in
            match PlayReady.ExtractPRKeyIdFromPssh pssh with
            | GoOk keyId => GoOk (keyId, Some pssh)
            | GoErr e => GoErr ("error extracting key ID: " ++ e)%string
            | GoPanic => GoPanic
            end
        end
      else eki_loop r
  end.

(** ExtractKeyInfo. *)
Definition ExtractKeyInfo (protections : list Dash.SmoothProtectionHeader)
    (channel : Config.Channel) : key_info_result :=
  match eki_loop protections with
  | GoPanic => KeyInfoPanic
  | GoErr e => KeyInfoRet None None None (Some e)
  | GoOk (None, _) => KeyInfoRet None None None (Some "no PlayReady key ID found")
  | GoOk (Some keyId, pssh) =>
      let hasKeys := match Config.ch_Keys channel with Some _ => true | None => false end in
      match Config.GetKey channel keyId with
      | GoPanic => KeyInfoPanic
      | GoErr e =>
          if String.eqb e "key not found" && hasKeys
          then KeyInfoRet (Some keyId) None pssh (Some "key not found")
          else KeyInfoRet None None None (Some ("error fetching key: " ++ e)%string)
      | GoOk key =>
          if (length key =? 0)%nat && hasKeys
          then KeyInfoRet (Some keyId) None pssh (Some "key not found")
          else KeyInfoRet (Some keyId) (Some key) pssh None
      end
  end.

(** The loop over [smoothStream.Protection] in InitHandler and
    SegmentHandler: every PlayReady header is decoded and overwrites
    [pssh] and [keyId] (no [break]). *)
Fixpoint handler_pr_loop (protections : list Dash.SmoothProtectionHeader)
    (keyId pssh : option (list Z)) : go_result (option (list Z) * option (list Z)) :=
  match protections with
  | [] => GoOk (keyId, pssh)
  | prot :: r =>
      if is_playready prot then
        match PlayReady.b64_decode (bytes_of_string (Dash.CustomData prot)) with
        | None => GoErr "Error decoding PSSH"
        | Some d =>
            let pssh' := TrimNullBytes d in
            match PlayReady.ExtractPRKeyIdFromPssh pssh' with
            | GoOk kid => handler_pr_loop r kid (Some pssh')
            | GoErr e => GoErr ("Error extracting key ID: " ++ e)%string
            | GoPanic => GoPanic
            end
        end
      else handler_pr_loop r keyId pssh
  end.

(** The key resolution of InitHandler and SegmentHandler: [keyId], [key]
    and [pssh] as they reach the init segment or the decryption, or the
    500 answer. A nil [Protection] skips the block. *)
Definition handler_key_info (protections : list Dash.SmoothProtectionHeader)
    (channel : Config.Channel)
  : go_result (option (list Z) * option (list Z) * option (list Z)) :=
  match protections with
  | [] => GoOk (None, None, None)
  | _ =>
      Mp4.bind (handler_pr_loop protections None None) (fun '(keyId, pssh) =>
      match keyId with
      | None => GoErr "No PlayReady key ID found"
      | Some kid =>
          let hasKeys := match Config.ch_Keys channel with Some _ => true | None => false end in
          match Config.GetKey channel kid with
          | GoPanic => GoPanic
          | GoErr e =>
              if String.eqb e "key not found" && hasKeys
              then GoErr ("Error fetching key: " ++ e)%string
              else if hasKeys then GoErr "Key not found"
              else GoOk (Some kid, None, pssh)
          | GoOk key =>
              if (length key =? 0)%nat && hasKeys then GoErr "Key not found"
              else GoOk (Some kid, Some key, pssh)
          end
      end)
  end.

End KeyInfo.

(** [hex.EncodeToString]: two lower-case hex digits per byte (used to
    build inputs). *)
Definition hex_digit (v : Z) : Z := if v <? 10 then 48 + v else 87 + v.

Definition hex_bytes (bs : list Z) : list Z :=
  flat_map (fun b => [hex_digit (b / 16); hex_digit (b mod 16)]) bs.

Definition hex_encode (bs : list Z) : string := Dash.string_of_bytes (hex_bytes bs).

(** The result of a conversion with the text adaptation sets left out. *)
Definition drop_text_sets (r : go_result Dash.MPD) : go_result Dash.MPD :=
  match r with
  | GoOk m =>
      GoOk (Dash.mkMPD (Dash.mpd_Type m) (Dash.mpd_XMLNSCommonEncryption m)
              (Dash.mpd_XMLNSPlayReady m) (Dash.mpd_PublishTime m)
              (Dash.mpd_MediaPresentationDuration m) (Dash.mpd_MinimumUpdatePeriod m)
              (Dash.mpd_TimeShiftBufferDepth m) (Dash.mpd_Title m)
              (filter (fun a => negb (String.eqb (Dash.as_ContentType a) "text"))
                 (Dash.mpd_AdaptationSets m)))
  | GoErr e => GoErr e
  | GoPanic => GoPanic
  end.

(** An example on-demand Smooth Streaming manifest with a PlayReady header,
    an audio stream and a subtitle stream. *)
Definition example_manifest : Dash.SmoothStream :=
  Dash.mkSmoothStream 1200000000 10000000 false 0
    [Dash.mkProtectionHeader "9A04F079-9840-4286-AB92-E65BE0885F95" "AAAA"]
    [Dash.mkStreamIndex "audio" "audio_eng" "eng" "QualityLevels({bitrate})/Fragments(audio_eng={start time})"
       [Dash.mkQualityLevel 0 128000 "1190" "AACL" 0 0 2 48000]
       [Dash.mkChunkInfo 20000000 0; Dash.mkChunkInfo 20000000 0];
     Dash.mkStreamIndex "text" "textstream_eng" "eng" "QualityLevels({bitrate})/Fragments(textstream_eng={start time})"
       [Dash.mkQualityLevel 0 1000 "" "TTML" 0 0 0 0]
       [Dash.mkChunkInfo 20000000 0]].

(** The AVC codec string the example uses for every SPS. *)
Definition example_avc_codec_string (sps : list Z) : go_result string := GoOk "avc1.4d4020"%string.

(** A TTML document with one [<p>] element and the given begin and end
    values. *)
Definition example_ttml (b e : string) : string :=
  ("<tt><body><p begin=" ++ TtmlXml.dq ++ b ++ TtmlXml.dq ++ " end=" ++ TtmlXml.dq ++ e
   ++ TtmlXml.dq ++ ">hi</p></body></tt>")%string.

(** A fragmented subtitle file of one fragment (track 2, no tfdt, no sidx)
    whose mdat holds [ttml]. *)
Definition example_subtitle_file (ttml : string) : Mp4.file :=
  Mp4.mkFile true
    [Mp4.mkSegment
       [Mp4.mkFragment [Mp4.MoofF; Mp4.MdatF]
          (Some (Mp4.mkTraf (Some (Mp4.mkTfhd 2 0 0 0))
                   [Mp4.mkTrun 0x305 8 [Mp4.mkSample 20000000 50 0 0]]
                   [Mp4.TfhdC; Mp4.TrunC]))
          (Some ttml)]].

(** The TTML payloads of the fragments of a file. *)
Definition mdat_payloads (f : Mp4.file) : list (option string) :=
  flat_map (fun seg => map Mp4.frag_mdat (Mp4.seg_fragments seg)) (Mp4.file_segments f).

(** A fragmented video file of one fragment (track 2, one trun) whose traf
    has the children [cs]. *)
Definition example_video_file (cs : list Mp4.traf_child) : Mp4.file :=
  Mp4.mkFile true
    [Mp4.mkSegment
       [Mp4.mkFragment [Mp4.MoofF; Mp4.MdatF]
          (Some (Mp4.mkTraf (Some (Mp4.mkTfhd 2 0 0 0))
                   [Mp4.mkTrun 0x305 8 [Mp4.mkSample 20000000 50 0 0]] cs))
          (Some ""%string)]].

(** The traf children of the fragments of a file. *)
Definition traf_children_of (f : Mp4.file) : list (option (list Mp4.traf_child)) :=
  flat_map (fun seg => map (fun fr => option_map Mp4.traf_children (Mp4.frag_traf fr))
                           (Mp4.seg_fragments seg))
           (Mp4.file_segments f).

(** ProcessVideoSegment without a key, with the decryption left unused. *)
Definition video_no_key (inMp4 : Mp4.file) (chunkId : Z) : go_result Mp4.file :=
  Mp4.ProcessVideoSegment unit (fun seg _ _ => GoOk seg) inMp4 tt None chunkId.

(** Strings made of decimal digits only. *)
Fixpoint all_digits (s : string) : bool :=
  match s with
  | EmptyString => true
  | String c r => Ttml.is_digit c && all_digits r
  end.

(** * Properties *)

Import ListNotations.
Local Open Scope Z_scope.

(** ** Helper lemmas *)

Lemma decode_pairs_length (s d : list Z) :
  Hex.decode_pairs s = Some d -> (2 * length d <= length s <= 2 * length d + 1)%nat.
Proof.
  revert d. induction s as [s IH] using (induction_ltof1 _ (@length Z)).
  intros d H. destruct s as [|p [|q r]]; simpl in H.
  - inversion H; subst; simpl; lia.
  - inversion H; subst; simpl; lia.
  - destruct (Hex.hex_val p), (Hex.hex_val q); try discriminate.
    destruct (Hex.decode_pairs r) as [d'|] eqn:E; simpl in H; try discriminate.
    inversion H; subst. specialize (IH r). unfold ltof in IH. simpl in IH.
    specialize (IH ltac:(lia) d' E). simpl. lia.
Qed.

Lemma roundupsize_small (L : Z) : 0 <= L <= 16 -> Hex.roundupsize L <= 16 /\ L <= Hex.roundupsize L.
Proof.
  intros H. unfold Hex.roundupsize, Hex.size_classes. simpl.
  destruct (L <=? 8) eqn:E1; [apply Z.leb_le in E1; lia|].
  destruct (L <=? 16) eqn:E2; [apply Z.leb_le in E2; lia|].
  apply Z.leb_gt in E2. lia.
Qed.

(** The backing array [hex.DecodeString] returns for a string of at most
    16 hex digits is at most 16 bytes long. *)
Lemma DecodeString_short_backing (s arr : list Z) (n : nat) :
  Hex.DecodeString s = GoOk (arr, n) -> (length s <= 16)%nat -> (length arr <= 16)%nat.
Proof.
  unfold Hex.DecodeString. intros H Hs.
  destruct (Hex.decode_pairs s) as [d|] eqn:E; try discriminate.
  destruct (Nat.odd (length s)); try discriminate.
  inversion H; subst arr n. clear H.
  apply decode_pairs_length in E.
  destruct (roundupsize_small (Z.of_nat (length s))) as [H1 H2]; [lia|].
  rewrite !length_app, length_skipn, repeat_length. lia.
Qed.

Lemma DecodeString_length (s arr : list Z) (n : nat) :
  Hex.DecodeString s = GoOk (arr, n) -> length s = (2 * n)%nat.
Proof.
  unfold Hex.DecodeString. intros H.
  destruct (Hex.decode_pairs s) as [d|] eqn:E; try discriminate.
  destruct (Nat.odd (length s)) eqn:Eo; try discriminate.
  inversion H; subst arr n. apply decode_pairs_length in E.
  assert (Ev : Nat.even (length s) = true).
  { rewrite <- Nat.negb_odd, Eo. reflexivity. }
  apply Nat.even_spec in Ev. destruct Ev as [k Hk]. lia.
Qed.

Lemma length_bytes_of_string (s : string) : length (bytes_of_string s) = String.length s.
Proof.
  unfold bytes_of_string. rewrite length_map.
  induction s; simpl; auto.
Qed.

(** ** Init segments and track ids *)

(** C1: STPPInitSegment.Generate returns an init segment whose moov holds
    two traks, with track ids 1 and 2: the "audio" trak NewBaseInitSegment
    adds, which receives the stpp sample entry, and the empty "subtitle"
    trak added after it. *)
Theorem stpp_init_has_two_traks (lang : string) (timeScale : Z) :
  exists i, Init.STPPInitSegment_Generate lang timeScale = GoOk i
    /\ Init.trak_ids i = [1; 2]
    /\ map Init.trak_media_type (Init.moov_traks i) = ["audio"; "subtitle"]%string
    /\ map Init.trak_entry (Init.moov_traks i)
       = [Some (Init.StppEntry Init.stpp_namespace "" ""); None]
    /\ Init.mvex_trex_ids i = [1; 2].
Proof.
  eexists. split; [reflexivity|]. repeat split; reflexivity.
Qed.

(** The STPP init segment for a 10 MHz English subtitle track. *)
Lemma stpp_init_eng_track_ids :
  match Init.STPPInitSegment_Generate "eng" 10000000 with
  | GoOk i => Init.trak_ids i
  | _ => []
  end = [1; 2].
Proof. reflexivity. Qed.

(** ** PlayReady key ids *)

(** C3: when the WRMHEADER's KID payload base64-decodes to the 16 bytes
    B0..B15, ExtractPRKeyIdFromPssh returns the key id
    [B3,B2,B1,B0, B5,B4, B7,B6, B8..B15]. *)
Theorem ExtractPRKeyIdFromPssh_byte_order (data text g : list Z)
    (b0 b1 b2 b3 b4 b5 b6 b7 b8 b9 b10 b11 b12 b13 b14 b15 : Z) :
  PlayReady.wrm_header_text data = Some text ->
  PlayReady.find_kid text = Some g ->
  PlayReady.b64_decode g
    = Some [b0; b1; b2; b3; b4; b5; b6; b7; b8; b9; b10; b11; b12; b13; b14; b15] ->
  PlayReady.ExtractPRKeyIdFromPssh data
    = GoOk (Some [b3; b2; b1; b0; b5; b4; b7; b6; b8; b9; b10; b11; b12; b13; b14; b15]).
Proof.
  intros Htext Hkid Hdec. unfold PlayReady.ExtractPRKeyIdFromPssh.
  rewrite Htext, Hkid, Hdec. reflexivity.
Qed.

Lemma ExtractPRKeyIdFromPssh_byte_order_witness :
  PlayReady.ExtractPRKeyIdFromPssh
    (PlayReady.pr_object
       "<WRMHEADER><DATA><KID>AAECAwQFBgcICQoLDA0ODw==</KID></DATA></WRMHEADER>")
  = GoOk (Some [3; 2; 1; 0; 5; 4; 7; 6; 8; 9; 10; 11; 12; 13; 14; 15]).
Proof. eapply ExtractPRKeyIdFromPssh_byte_order; reflexivity. Defined.

(** C4: when the KID payload base64-decodes to a byte string whose length
    is not 16, ExtractPRKeyIdFromPssh returns a nil key id with a nil
    error ([GoOk None]), not an error. *)
Theorem ExtractPRKeyIdFromPssh_wrong_length_no_error (data text g keyBytes : list Z) :
  PlayReady.wrm_header_text data = Some text ->
  PlayReady.find_kid text = Some g ->
  PlayReady.b64_decode g = Some keyBytes ->
  length keyBytes <> 16%nat ->
  PlayReady.ExtractPRKeyIdFromPssh data = GoOk None.
Proof.
  intros Htext Hkid Hdec Hlen. unfold PlayReady.ExtractPRKeyIdFromPssh.
  rewrite Htext, Hkid, Hdec.
  destruct (Nat.eqb_spec (length keyBytes) 16); [contradiction | reflexivity].
Qed.

Lemma ExtractPRKeyIdFromPssh_wrong_length_witness :
  PlayReady.ExtractPRKeyIdFromPssh
    (PlayReady.pr_object "<WRMHEADER><DATA><KID>AAAA</KID></DATA></WRMHEADER>")
  = GoOk None.
Proof.
  eapply ExtractPRKeyIdFromPssh_wrong_length_no_error; try reflexivity.
  simpl. discriminate.
Defined.

(** A three-byte KID ("AAAA") yields no key id and no error. *)
Lemma ExtractPRKeyIdFromPssh_three_byte_kid :
  PlayReady.b64_decode (bytes_of_string "AAAA") = Some [0; 0; 0]
  /\ PlayReady.ExtractPRKeyIdFromPssh
       (PlayReady.pr_object "<WRMHEADER><DATA><KID>AAAA</KID></DATA></WRMHEADER>")
     = GoOk None.
Proof. split; reflexivity. Qed.

(** ** EC-3 private data *)

(** C5: every hex-decodable codec private data of 2 to 8 bytes makes
    CodecPrivateDataToDec3Box panic: the slice [info[6:22]] exceeds the
    capacity of the decoded slice. *)
Theorem CodecPrivateDataToDec3Box_short_panics (Dec3Box : Type)
    (DecodeDec3 : list Z -> go_result Dec3Box) (hexStr : string) (arr : list Z) (n : nat) :
  Hex.DecodeString (bytes_of_string hexStr) = GoOk (arr, n) ->
  (2 <= n <= 8)%nat ->
  Hex.CodecPrivateDataToDec3Box Dec3Box DecodeDec3 hexStr = GoPanic.
Proof.
  intros Hdec Hn. unfold Hex.CodecPrivateDataToDec3Box. rewrite Hdec.
  pose proof (DecodeString_length _ _ _ Hdec) as HL.
  pose proof (DecodeString_short_backing _ _ _ Hdec ltac:(lia)) as Harr.
  destruct (Nat.ltb_spec n 2); [lia|].
  unfold Hex.extractDolbyDigitalPlusInfo.
  destruct (Nat.ltb_spec (length arr) 22); [reflexivity | lia].
Qed.

Lemma CodecPrivateDataToDec3Box_short_witness :
  Hex.CodecPrivateDataToDec3Box unit (fun _ => GoOk tt) "00063F00" = GoPanic.
Proof.
  eapply (CodecPrivateDataToDec3Box_short_panics unit (fun _ => GoOk tt) "00063F00"
            [0; 6; 63; 0; 51; 70; 48; 48] 4); [reflexivity | lia].
Defined.

(** The 8-byte private data 00063F000000AF87 panics instead of being
    reported as malformed, while the 27-byte test vector of the
    repository yields the payload after the GUID. *)
Lemma CodecPrivateDataToDec3Box_eight_bytes :
  Hex.CodecPrivateDataToDec3Box (list Z) (fun p => GoOk p) "00063F000000AF87" = GoPanic
  /\ Hex.CodecPrivateDataToDec3Box (list Z) (fun p => GoOk p)
       "00063F000000AF87FBA7022DFB42A4D405CD93843BDD0700200F00" = GoOk [7; 0; 32; 15; 0].
Proof. split; reflexivity. Qed.

(** ** Decimal text and representation id parsing *)

Lemma digit_char_code (d : Z) : 0 <= d < 10 ->
  Z.of_nat (nat_of_ascii (digit_char d)) = 48 + d.
Proof.
  intros H. unfold digit_char. rewrite Ascii.nat_ascii_embedding; lia.
Qed.

Lemma digits_of_digit (a d : Z) (r : string) : 0 <= d < 10 ->
  Handlers.digits_of a (String (digit_char d) r) = Handlers.digits_of (a * 10 + d) r.
Proof.
  intros H.
  change (Handlers.digits_of a (String (digit_char d) r)) with
    (let n := Z.of_nat (nat_of_ascii (digit_char d)) in
     if (48 <=? n) && (n <=? 57) then Handlers.digits_of (a * 10 + (n - 48)) r else None).
  cbv zeta. rewrite digit_char_code by exact H.
  replace (48 <=? 48 + d) with true by (symmetry; apply Z.leb_le; lia).
  replace (48 + d <=? 57) with true by (symmetry; apply Z.leb_le; lia).
  simpl andb. cbv iota. f_equal. lia.
Qed.

Lemma dec_digits_aux_value (f : nat) : forall (n : Z) (acc : string) (a : Z),
  0 <= n < 10 ^ Z.of_nat f ->
  exists k, 0 <= k /\
    Handlers.digits_of a (dec_digits_aux f n acc) = Handlers.digits_of (a * 10 ^ k + n) acc.
Proof.
  induction f as [|f IH]; intros n acc a Hn.
  - simpl in Hn. exists 0. split; [lia|]. simpl. replace n with 0 by lia.
    rewrite Z.mul_1_r, Z.add_0_r. reflexivity.
  - cbn [dec_digits_aux]. assert (Hm : 0 <= n mod 10 < 10) by (apply Z.mod_pos_bound; lia).
    destruct (Z.ltb_spec n 10).
    + exists 1. split; [lia|]. rewrite digits_of_digit by exact Hm.
      rewrite Z.mod_small by lia. f_equal; lia.
    + rewrite Nat2Z.inj_succ, Z.pow_succ_r in Hn by lia.
      destruct (IH (n / 10) (String (digit_char (n mod 10)) acc) a) as [k [Hk E]].
      { split; [apply Z.div_pos; lia|]. apply Z.div_lt_upper_bound; lia. }
      exists (k + 1). split; [lia|]. rewrite E, digits_of_digit by exact Hm.
      f_equal. rewrite Z.pow_add_r by lia.
      pose proof (Z.div_mod n 10). lia.
Qed.


Lemma is_digit_digit_char (d : Z) : 0 <= d < 10 -> Ttml.is_digit (digit_char d) = true.
Proof.
  intros Hm. unfold Ttml.is_digit. pose proof (digit_char_code _ Hm).
  apply andb_true_intro; split; apply Nat.leb_le; lia.
Qed.

Lemma dec_digits_aux_shape (f : nat) : forall (n : Z) (acc : string),
  0 <= n -> all_digits acc = true ->
  exists c r, dec_digits_aux (S f) n acc = String c r /\ Ttml.is_digit c = true
              /\ all_digits r = true.
Proof.
  induction f as [|f IH]; intros n acc Hn Hacc.
  - assert (Hm : 0 <= n mod 10 < 10) by (apply Z.mod_pos_bound; lia).
    cbn [dec_digits_aux]. destruct (n <? 10); eexists _, _;
      (split; [reflexivity | split; [apply is_digit_digit_char; exact Hm | exact Hacc]]).
  - assert (Hm : 0 <= n mod 10 < 10) by (apply Z.mod_pos_bound; lia).
    change (dec_digits_aux (S (S f)) n acc) with
      (let acc' := String (digit_char (n mod 10)) acc in
       if n <? 10 then acc' else dec_digits_aux (S f) (n / 10) acc').
    cbv zeta. destruct (n <? 10).
    + eexists _, _. split; [reflexivity | split; [apply is_digit_digit_char; exact Hm | exact Hacc]].
    + apply IH; [apply Z.div_pos; lia|]. simpl. rewrite is_digit_digit_char, Hacc by exact Hm.
      reflexivity.
Qed.

Lemma dec_digits_fuel (n : Z) : 0 <= n -> n < 10 ^ Z.of_nat (S (Z.to_nat (Z.log2 (Z.max n 1)))).
Proof.
  intros Hn. set (m := Z.max n 1).
  assert (Hm : 0 < m) by lia.
  destruct (Z.log2_spec m Hm) as [_ Hup].
  pose proof (Z.log2_nonneg m).
  rewrite Nat2Z.inj_succ, Z2Nat.id by lia.
  assert (2 ^ Z.succ (Z.log2 m) <= 10 ^ Z.succ (Z.log2 m)).
  { apply Z.pow_le_mono_l. lia. }
  lia.
Qed.

Lemma dec_digits_value (n : Z) : 0 <= n -> Handlers.digits_of 0 (dec_digits n) = Some n.
Proof.
  intros Hn. unfold dec_digits.
  destruct (dec_digits_aux_value _ n EmptyString 0 (conj Hn (dec_digits_fuel n Hn)))
    as [k [_ E]].
  rewrite E. reflexivity.
Qed.

Lemma dec_digits_shape (n : Z) : 0 <= n ->
  exists c r, dec_digits n = String c r /\ Ttml.is_digit c = true /\ all_digits r = true.
Proof. intros Hn. unfold dec_digits. apply dec_digits_aux_shape; auto. Qed.

Lemma LastIndexUnderscore_digits (s : string) :
  all_digits s = true -> Handlers.LastIndexUnderscore s = None.
Proof.
  induction s as [|c r IH]; simpl; auto.
  intros H. apply andb_prop in H. destruct H as [Hc Hr]. rewrite IH by exact Hr.
  destruct (Ascii.eqb_spec c "_"); auto. subst. discriminate.
Qed.

Lemma LastIndexUnderscore_app (name t : string) :
  Handlers.LastIndexUnderscore t = None ->
  Handlers.LastIndexUnderscore (name ++ String "_" t) = Some (String.length name).
Proof.
  intros Ht. induction name as [|c r IH]; simpl.
  - rewrite Ht. reflexivity.
  - rewrite IH. reflexivity.
Qed.

Lemma substring_app_l (a b : string) : substring 0 (String.length a) (a ++ b) = a.
Proof. induction a as [|c r IH]; simpl; [destruct b; reflexivity | rewrite IH; reflexivity]. Qed.

Lemma substring_full (b : string) : substring 0 (String.length b) b = b.
Proof. induction b as [|c r IH]; simpl; [reflexivity | rewrite IH; reflexivity]. Qed.

Lemma substring_app_r (a b : string) :
  substring (String.length a) (String.length b) (a ++ b) = b.
Proof. induction a as [|c r IH]; simpl; [apply substring_full | exact IH]. Qed.

Lemma length_append (a b : string) : String.length (a ++ b) = (String.length a + String.length b)%nat.
Proof. induction a as [|c r IH]; simpl; auto. Qed.

Lemma Atoi_itoa (n : Z) : - 2 ^ 63 <= n < 2 ^ 63 -> Handlers.Atoi (go_itoa n) = Some n.
Proof.
  intros Hr. unfold go_itoa. destruct (Z.ltb_spec n 0).
  - destruct (dec_digits_shape (- n) ltac:(lia)) as [c [r [E _]]].
    unfold Handlers.Atoi. rewrite E. rewrite <- E, dec_digits_value by lia.
    replace (- - n) with n by lia.
    destruct (Z.leb_spec (- 2 ^ 63) n); [|lia].
    destruct (Z.ltb_spec n (2 ^ 63)); [reflexivity | lia].
  - destruct (dec_digits_shape n H) as [c [r [E [Hc _]]]].
    unfold Handlers.Atoi. rewrite E.
    assert (Hsign : (match String c r with
                     | String "-" r0 => (true, r0)
                     | String "+" r0 => (false, r0)
                     | _ => (false, String c r) end) = (false, String c r)).
    { unfold Ttml.is_digit in Hc.
      destruct c as [b0 b1 b2 b3 b4 b5 b6 b7].
      destruct b0, b1, b2, b3, b4, b5, b6, b7; try reflexivity; discriminate. }
    rewrite Hsign. rewrite <- E, dec_digits_value by exact H.
    destruct (Z.leb_spec (- 2 ^ 63) n); [|lia].
    destruct (Z.ltb_spec n (2 ^ 63)); [reflexivity | lia].
Qed.

Lemma append_assoc_str (a b c : string) : ((a ++ b) ++ c = a ++ (b ++ c))%string.
Proof. induction a as [|x r IH]; simpl; [reflexivity | rewrite IH; reflexivity]. Qed.

Lemma LastIndexUnderscore_itoa (n : Z) : Handlers.LastIndexUnderscore (go_itoa n) = None.
Proof.
  unfold go_itoa. destruct (n <? 0) eqn:E.
  - apply Z.ltb_lt in E. destruct (dec_digits_shape (- n) ltac:(lia)) as [c [r [Ed [Hc Hr]]]].
    simpl. rewrite LastIndexUnderscore_digits; [reflexivity|]. rewrite Ed. simpl.
    rewrite Hc, Hr. reflexivity.
  - apply Z.ltb_ge in E. destruct (dec_digits_shape n E) as [c [r [Ed [Hc Hr]]]].
    apply LastIndexUnderscore_digits. rewrite Ed. simpl. rewrite Hc, Hr. reflexivity.
Qed.

Lemma itoa_nonempty (n : Z) : String.length (go_itoa n) <> O.
Proof.
  unfold go_itoa. destruct (n <? 0) eqn:E; [simpl; discriminate|].
  apply Z.ltb_ge in E. destruct (dec_digits_shape n E) as [c [r [Ed _]]].
  rewrite Ed. simpl. discriminate.
Qed.

(** ** Representation ids *)

(** C9: for every quality level of every stream index, the representation
    id [fmt.Sprintf("%s_%d", name_or_type, Index)] that the conversion
    emits is split by the handlers at its last underscore into exactly the
    stream's name-or-type and the quality level's index (Go's [int] is 64
    bits wide, hence the range). *)
Theorem split_quality_id_rep_id (si : Dash.StreamIndex) (ql : Dash.QualityLevel) :
  - 2 ^ 63 <= Dash.ql_Index ql < 2 ^ 63 ->
  Handlers.split_quality_id (Dash.rep_id (Dash.name_or_type si) (Dash.ql_Index ql))
  = Some (Dash.name_or_type si, Dash.ql_Index ql).
Proof.
  intros Hr. set (name := Dash.name_or_type si). set (idx := Dash.ql_Index ql).
  unfold Handlers.split_quality_id, Dash.rep_id.
  change ("_" ++ go_itoa idx)%string with (String "_" (go_itoa idx)).
  rewrite LastIndexUnderscore_app by apply LastIndexUnderscore_itoa.
  pose proof (itoa_nonempty idx) as Hne.
  rewrite length_append. simpl String.length.
  destruct (Nat.eqb_spec (String.length name) (String.length name + S (String.length (go_itoa idx)) - 1));
    [lia|].
  rewrite substring_app_l.
  replace (name ++ String "_" (go_itoa idx))%string with ((name ++ "_") ++ go_itoa idx)%string
    by (rewrite append_assoc_str; reflexivity).
  replace (String.length name + S (String.length (go_itoa idx)) - (String.length name + 1))%nat
    with (String.length (go_itoa idx)) by lia.
  replace (String.length name + 1)%nat with (String.length (name ++ "_")%string)
    by (rewrite length_append; reflexivity).
  rewrite substring_app_r, Atoi_itoa by exact Hr. reflexivity.
Qed.

Lemma split_quality_id_rep_id_witness :
  Handlers.split_quality_id
    (Dash.rep_id (Dash.name_or_type (Dash.mkStreamIndex "audio" "audio_deu" "deu" "" [] []))
       (Dash.ql_Index (Dash.mkQualityLevel 3 128000 "" "AACL" 0 0 2 48000)))
  = Some ("audio_deu"%string, 3).
Proof.
  apply (split_quality_id_rep_id (Dash.mkStreamIndex "audio" "audio_deu" "deu" "" [] [])
           (Dash.mkQualityLevel 3 128000 "" "AACL" 0 0 2 48000)).
  simpl. lia.
Defined.

(** ** The request cache *)

(** C10: two concurrent DoRequest calls for a URL that is not cached can
    both find the cache empty before either stores its entry (Load and
    Store are separate steps, not a LoadOrStore); each then requests the
    URL upstream, so one TTL window sees two upstream fetches and the
    callers receive the bodies of different fetches. When the second
    Load happens after the first Store, the second caller waits on the
    entry and reads the single fetched body. *)
Theorem DoRequest_concurrent_misses_fetch_twice (upstream : nat -> Z) :
  Cache.run upstream [0; 1; 0; 1; 0; 1]%nat (Cache.init_state 2)
  = Some (Cache.mkState (Some 1%nat) [true; true] (Some (upstream 1%nat)) 2
            [Cache.Done (upstream 0%nat); Cache.Done (upstream 1%nat)])
  /\ Cache.run upstream [0; 0; 1; 0; 1]%nat (Cache.init_state 2)
  = Some (Cache.mkState (Some 0%nat) [true] (Some (upstream 0%nat)) 1
            [Cache.Done (upstream 0%nat); Cache.Done (upstream 0%nat)]).
Proof. split; reflexivity. Qed.

(** The interleaving with an upstream that serves a new version of the
    document on each request: two fetches, two different bodies. *)
Lemma DoRequest_two_fetches_two_bodies :
  match Cache.run (fun k => Z.of_nat k) [0; 1; 0; 1; 0; 1]%nat (Cache.init_state 2) with
  | Some st => (Cache.st_fetches st, Cache.st_goroutines st)
  | None => (O, [])
  end = (2%nat, [Cache.Done 0; Cache.Done 1]).
Proof. reflexivity. Qed.

(** ** Content protection and the subtitle toggle in the MPD *)

Lemma adaptation_set_of_protection avc ss hk al pr p idx si a :
  Dash.adaptation_set_of avc ss hk al pr p idx si = GoOk (Some a) ->
  Dash.as_ContentType a = Dash.si_Type si /\
  ((Dash.si_Type si = "video"%string \/ Dash.si_Type si = "audio"%string) ->
   Dash.as_ContentProtections a
   = match pr with
     | Some ph => if Dash.protect hk pr then [Dash.playready_descriptor ph p] else []
     | None => []
     end).
Proof.
  unfold Dash.adaptation_set_of, Mp4.bind.
  destruct (Dash.representations_of avc si _ 2 (Dash.si_QualityLevels si)) as [[reps ch]| |];
    try discriminate.
  destruct (String.eqb_spec (Dash.si_Type si) "video");
    [intros H; inversion H; subst; simpl; auto|].
  destruct (String.eqb_spec (Dash.si_Type si) "audio");
    [intros H; inversion H; subst; simpl; auto|].
  destruct (String.eqb_spec (Dash.si_Type si) "text").
  - destruct al; simpl; intros H; inversion H; subst; simpl;
      split; [reflexivity | intros [E|E]; congruence].
  - intros H; inversion H; subst; simpl; split; [reflexivity | intros [E|E]; congruence].
Qed.

Lemma adaptation_sets_of_protection avc ss hk al pr p sis :
  forall idx sets,
  Dash.adaptation_sets_of avc ss hk al pr p idx sis = GoOk sets ->
  forall a, In a sets ->
  (Dash.as_ContentType a = "video"%string \/ Dash.as_ContentType a = "audio"%string) ->
  Dash.as_ContentProtections a
  = match pr with
    | Some ph => if Dash.protect hk pr then [Dash.playready_descriptor ph p] else []
    | None => []
    end.
Proof.
  induction sis as [|si r IH]; simpl; intros idx sets H a Ha Ht.
  - inversion H; subst; destruct Ha.
  - unfold Mp4.bind at 1 in H.
    destruct (Dash.adaptation_set_of avc ss hk al pr p idx si) as [o| |] eqn:E;
      try discriminate.
    unfold Mp4.bind in H.
    destruct (Dash.adaptation_sets_of avc ss hk al pr p (idx + 1) r) as [rest| |] eqn:Er;
      try discriminate.
    inversion H; subst; clear H.
    destruct o as [b|].
    + destruct Ha as [<-|Ha].
      * apply adaptation_set_of_protection in E as [Ec Ep].
        apply Ep. rewrite <- Ec. exact Ht.
      * exact (IH _ _ Er a Ha Ht).
    + exact (IH _ _ Er a Ha Ht).
Qed.

Lemma adaptation_set_of_no_subs avc ss hk pr p idx si :
  Dash.adaptation_set_of avc ss hk false pr p idx si
  = Mp4.bind (Dash.adaptation_set_of avc ss hk true pr p idx si) (fun o =>
      GoOk (match o with
            | Some a => if String.eqb (Dash.as_ContentType a) "text" then None else Some a
            | None => None
            end)).
Proof.
  unfold Dash.adaptation_set_of, Mp4.bind.
  destruct (Dash.representations_of avc si _ 2 (Dash.si_QualityLevels si)) as [[reps ch]| |];
    try reflexivity.
  destruct (String.eqb_spec (Dash.si_Type si) "video") as [E|];
    [simpl; rewrite E; reflexivity|].
  destruct (String.eqb_spec (Dash.si_Type si) "audio") as [E|];
    [simpl; rewrite E; reflexivity|].
  destruct (String.eqb_spec (Dash.si_Type si) "text") as [E|Ne];
    [simpl; rewrite E; reflexivity|].
  simpl. apply String.eqb_neq in Ne. rewrite Ne. reflexivity.
Qed.

Lemma adaptation_sets_of_no_subs avc ss hk pr p sis :
  forall idx,
  Dash.adaptation_sets_of avc ss hk false pr p idx sis
  = Mp4.bind (Dash.adaptation_sets_of avc ss hk true pr p idx sis) (fun sets =>
      GoOk (filter (fun a => negb (String.eqb (Dash.as_ContentType a) "text")) sets)).
Proof.
  induction sis as [|si r IH]; intros idx; simpl; [reflexivity|].
  rewrite adaptation_set_of_no_subs, IH.
  destruct (Dash.adaptation_set_of avc ss hk true pr p idx si) as [o| |]; simpl;
    try reflexivity.
  destruct (Dash.adaptation_sets_of avc ss hk true pr p (idx + 1) r) as [sets| |];
    destruct o as [a|]; simpl; try reflexivity;
    destruct (String.eqb (Dash.as_ContentType a) "text"); reflexivity.
Qed.

(** C7: in the MPD of SmoothToDashManifest, every video and audio
    adaptation set carries ContentProtection elements exactly when
    has_keys is false and the manifest holds a PlayReady protection
    header. There is then a single element, with scheme
    urn:uuid:<system id lowercased>, value "MSPR 2.0", an mspr:pro child
    with the raw custom data and a cenc:pssh child with the base64 of the
    PSSH box built around the decoded custom data. The root declares the
    mspr and cenc namespaces in exactly that case; otherwise both are left
    empty, so [omitempty] leaves them out. *)
Theorem SmoothToDashManifest_content_protection avc ss hasKeys allowSubs channelName now mpd :
  Dash.SmoothToDashManifest avc ss hasKeys allowSubs channelName now = GoOk mpd ->
  match Dash.GetProtectionHeaderForSystemId ss Dash.UUIDPlayReady with
  | Some ph =>
      exists custom,
      PlayReady.b64_decode (bytes_of_string (Dash.CustomData ph)) = Some custom /\
      (forall a, In a (Dash.mpd_AdaptationSets mpd) ->
       (Dash.as_ContentType a = "video"%string \/ Dash.as_ContentType a = "audio"%string) ->
       Dash.as_ContentProtections a
       = if hasKeys then []
         else [Dash.mkDescriptor ("urn:uuid:" ++ Dash.ToLower (Dash.SystemID ph)) "MSPR 2.0"
                 (Some (Dash.mkPro "urn:microsoft:playready" (Dash.CustomData ph)))
                 (Some (Dash.mkPssh "urn:mpeg:cenc:2013"
                          (Dash.string_of_bytes
                             (Dash.b64_encode
                                (Dash.pssh_box_encode Dash.playready_system_id custom)))))]%string) /\
      Dash.mpd_XMLNSPlayReady mpd = (if hasKeys then "" else "urn:microsoft:playready")%string /\
      Dash.mpd_XMLNSCommonEncryption mpd = (if hasKeys then "" else "urn:mpeg:cenc:2013")%string
  | None =>
      (forall a, In a (Dash.mpd_AdaptationSets mpd) ->
       (Dash.as_ContentType a = "video"%string \/ Dash.as_ContentType a = "audio"%string) ->
       Dash.as_ContentProtections a = []) /\
      Dash.mpd_XMLNSPlayReady mpd = ""%string /\
      Dash.mpd_XMLNSCommonEncryption mpd = ""%string
  end.
Proof.
  unfold Dash.SmoothToDashManifest.
  destruct (Dash.GetProtectionHeaderForSystemId ss Dash.UUIDPlayReady) as [ph|] eqn:Epr.
  - unfold Dash.GeneratePsshData.
    destruct (PlayReady.b64_decode (bytes_of_string (Dash.CustomData ph))) as [custom|] eqn:Eb;
      unfold Mp4.bind at 1; [|discriminate].
    unfold Mp4.bind.
    destruct (Dash.adaptation_sets_of avc ss hasKeys allowSubs (Some ph) _ 0
                (Dash.ss_StreamIndexes ss)) as [sets| |] eqn:Es; try discriminate.
    intros H; injection H as <-.
    cbn [Dash.mpd_AdaptationSets Dash.mpd_XMLNSPlayReady Dash.mpd_XMLNSCommonEncryption].
    exists custom. split; [reflexivity|].
    split; [|destruct hasKeys; split; reflexivity].
    intros a Ha Ht.
    rewrite (adaptation_sets_of_protection _ _ _ _ _ _ _ _ _ Es a Ha Ht).
    destruct hasKeys; reflexivity.
  - unfold Mp4.bind.
    destruct (Dash.adaptation_sets_of avc ss hasKeys allowSubs None _ 0
                (Dash.ss_StreamIndexes ss)) as [sets| |] eqn:Es; try discriminate.
    intros H; injection H as <-.
    cbn [Dash.mpd_AdaptationSets Dash.mpd_XMLNSPlayReady Dash.mpd_XMLNSCommonEncryption].
    unfold Dash.protect; rewrite andb_false_r.
    split; [|split; reflexivity].
    intros a Ha Ht.
    exact (adaptation_sets_of_protection _ _ _ _ _ _ _ _ _ Es a Ha Ht).
Qed.

Lemma SmoothToDashManifest_content_protection_witness :
  exists mpd,
  Dash.SmoothToDashManifest example_avc_codec_string example_manifest false true "ch" "now"
  = GoOk mpd /\
  match Dash.GetProtectionHeaderForSystemId example_manifest Dash.UUIDPlayReady with
  | Some ph =>
      exists custom,
      PlayReady.b64_decode (bytes_of_string (Dash.CustomData ph)) = Some custom /\
      (forall a, In a (Dash.mpd_AdaptationSets mpd) ->
       (Dash.as_ContentType a = "video"%string \/ Dash.as_ContentType a = "audio"%string) ->
       Dash.as_ContentProtections a
       = [Dash.mkDescriptor ("urn:uuid:" ++ Dash.ToLower (Dash.SystemID ph)) "MSPR 2.0"
                 (Some (Dash.mkPro "urn:microsoft:playready" (Dash.CustomData ph)))
                 (Some (Dash.mkPssh "urn:mpeg:cenc:2013"
                          (Dash.string_of_bytes
                             (Dash.b64_encode
                                (Dash.pssh_box_encode Dash.playready_system_id custom)))))]%string) /\
      Dash.mpd_XMLNSPlayReady mpd = "urn:microsoft:playready"%string /\
      Dash.mpd_XMLNSCommonEncryption mpd = "urn:mpeg:cenc:2013"%string
  | None => False
  end.
Proof.
  eexists. split; [vm_compute; reflexivity|].
  apply (SmoothToDashManifest_content_protection example_avc_codec_string example_manifest
           false true "ch" "now"); vm_compute; reflexivity.
Defined.

(** C8: with allow_subs false, SmoothToDashManifest returns what it returns
    with allow_subs true with the text adaptation sets left out: the other
    adaptation sets, the root attributes and every error are the same.
    In particular the MPD then has no adaptation set whose contentType is
    "text". *)
Theorem SmoothToDashManifest_no_subs avc ss hasKeys channelName now :
  Dash.SmoothToDashManifest avc ss hasKeys false channelName now
  = drop_text_sets (Dash.SmoothToDashManifest avc ss hasKeys true channelName now) /\
  (forall mpd, Dash.SmoothToDashManifest avc ss hasKeys false channelName now = GoOk mpd ->
   forall a, In a (Dash.mpd_AdaptationSets mpd) -> Dash.as_ContentType a <> "text"%string).
Proof.
  assert (E : Dash.SmoothToDashManifest avc ss hasKeys false channelName now
              = drop_text_sets (Dash.SmoothToDashManifest avc ss hasKeys true channelName now)).
  { unfold Dash.SmoothToDashManifest.
    destruct (match Dash.GetProtectionHeaderForSystemId ss Dash.UUIDPlayReady with
              | Some ph => Dash.GeneratePsshData ph | None => GoOk ""%string end)
      as [p| |]; simpl; try reflexivity.
    rewrite adaptation_sets_of_no_subs.
    destruct (Dash.adaptation_sets_of avc ss hasKeys true _ p 0 (Dash.ss_StreamIndexes ss));
      reflexivity. }
  split; [exact E|].
  intros mpd H a Ha Ht. rewrite E in H.
  destruct (Dash.SmoothToDashManifest avc ss hasKeys true channelName now) as [m| |];
    simpl in H; try discriminate.
  inversion H; subst; clear H. simpl in Ha.
  apply filter_In in Ha as [_ Hf]. rewrite Ht in Hf. discriminate.
Qed.

Lemma SmoothToDashManifest_no_subs_witness :
  Dash.SmoothToDashManifest example_avc_codec_string example_manifest false false "ch" "now"
  = drop_text_sets
      (Dash.SmoothToDashManifest example_avc_codec_string example_manifest false true "ch" "now")
  /\ List.length (match Dash.SmoothToDashManifest example_avc_codec_string example_manifest
                          false true "ch" "now" with
                  | GoOk m => Dash.mpd_AdaptationSets m | _ => [] end) = 2%nat
  /\ List.length (match Dash.SmoothToDashManifest example_avc_codec_string example_manifest
                          false false "ch" "now" with
                  | GoOk m => Dash.mpd_AdaptationSets m | _ => [] end) = 1%nat.
Proof.
  split; [apply (SmoothToDashManifest_no_subs example_avc_codec_string example_manifest
                   false "ch" "now")|].
  split; vm_compute; reflexivity.
Defined.

(** ** The TTML rebase of subtitle fragments *)

(** C6: the fragment step of ProcessSubtitleSegment replaces the mdat
    payload by the token stream of the TTML written back with the segment
    start time chunkId / timeScale. A [<p>] element keeps its attributes in
    order; its begin and end values that parseTTMLTime accepts become
    formatTTMLTime (value + start), the %02d:%02d:%06.3f form, and every
    other value is written unchanged. For the document
    [<p begin="00:00:01.000" end="00:00:03.500">hi</p>] with time 100000000
    and timescale 10000000 the output has begin="00:00:11.000" and
    end="00:00:13.500". *)
Theorem ProcessSubtitleSegment_rebases_p_times :
  (forall raw_tokens chunkId timeScale segmentDuration f f',
   Mp4.subtitle_fragment raw_tokens chunkId timeScale segmentDuration f = GoOk f' ->
   exists data toks,
   Mp4.frag_mdat f = Some data /\ raw_tokens data = Some toks /\
   Mp4.frag_mdat f'
   = Some (String.concat ""
             (map (TtmlXml.write_token (F64.div (F64.of_Z chunkId) (F64.of_Z timeScale)))
                toks))) /\
  (forall start n attrs,
   TtmlXml.name_local n = "p"%string ->
   TtmlXml.write_token start (TtmlXml.StartElement n attrs)
   = ("<p" ++ String.concat ""
        (map (fun a =>
                TtmlXml.writeAttr (TtmlXml.attr_name a)
                  (if String.eqb (TtmlXml.name_local (TtmlXml.attr_name a)) "begin"
                      || String.eqb (TtmlXml.name_local (TtmlXml.attr_name a)) "end"
                   then match Ttml.parseTTMLTime (TtmlXml.attr_value a) with
                        | Some seconds => Ttml.formatTTMLTime (F64.add seconds start)
                        | None => TtmlXml.attr_value a
                        end
                   else TtmlXml.attr_value a)) attrs)
      ++ ">")%string) /\
  match Mp4.ProcessSubtitleSegment XmlLex.raw_tokens
          (example_subtitle_file (example_ttml "00:00:01.000" "00:00:03.500"))
          100000000 10000000 20000000 with
  | GoOk out => mdat_payloads out
  | _ => []
  end = [Some (example_ttml "00:00:11.000" "00:00:13.500")].
Proof.
  split; [|split].
  - intros raw_tokens chunkId timeScale segmentDuration f f'.
    unfold Mp4.subtitle_fragment.
    destruct (Mp4.frag_traf f) as [tr0|]; [|discriminate].
    unfold Mp4.bind.
    destruct (Mp4.set_track_id_1 tr0) as [tr1| |]; try discriminate.
    destruct (Mp4.frag_mdat f) as [data|] eqn:Ed; [|discriminate].
    unfold TtmlXml.UpdateTTMLToAbsoluteTimestamps.
    destruct (raw_tokens data) as [toks|] eqn:Et; [|discriminate].
    destruct (Mp4.traf_tfhd tr1) as [th|]; [|discriminate].
    intros H; injection H as <-.
    exists data, toks. split; [reflexivity | split; [exact Et | reflexivity]].
  - intros start n attrs Hp. unfold TtmlXml.write_token.
    rewrite Hp. reflexivity.
  - vm_compute. reflexivity.
Qed.

(** The two ways the rewritten values leave the HH:MM:SS.fff form of the
    example: a start offset of 5001 / 10000000 s added to 00:00:59.999
    gives 59.9995001 s, which formatTTMLTime splits as 0 h, 0 min and
    59.9995001 s and prints as "00:00:60.000"; and a TTML offset time
    such as "10s", which parseTTMLTime rejects, is written unchanged. *)
Lemma ProcessSubtitleSegment_sixty_seconds :
  match Mp4.ProcessSubtitleSegment XmlLex.raw_tokens
          (example_subtitle_file (example_ttml "00:00:59.999" "00:00:59.999"))
          5001 10000000 20000000 with
  | GoOk out => mdat_payloads out
  | _ => []
  end = [Some (example_ttml "00:00:60.000" "00:00:60.000")] /\
  match Mp4.ProcessSubtitleSegment XmlLex.raw_tokens
          (example_subtitle_file (example_ttml "10s" "12s"))
          100000000 10000000 20000000 with
  | GoOk out => mdat_payloads out
  | _ => []
  end = [Some (example_ttml "10s" "12s")].
Proof. split; vm_compute; reflexivity. Qed.

(** ** tfdt handling of the segment processors *)

Lemma map_go_idem {A} (f : A -> go_result A) (l l' : list A) :
  Mp4.map_go f l = GoOk l' ->
  (forall x, In x l -> forall y, f x = GoOk y -> f y = GoOk y) ->
  Mp4.map_go f l' = GoOk l'.
Proof.
  revert l'; induction l as [|x r IH]; simpl; intros l' H Hf.
  - injection H as <-. reflexivity.
  - unfold Mp4.bind in H.
    destruct (f x) as [y| |] eqn:Ex; try discriminate.
    destruct (Mp4.map_go f r) as [ys| |] eqn:Er; try discriminate.
    injection H as <-. simpl.
    rewrite (Hf x (or_introl eq_refl) y Ex).
    rewrite (IH ys eq_refl (fun x' Hx' => Hf x' (or_intror Hx'))). reflexivity.
Qed.

Lemma map_go_in {A B} (f : A -> go_result B) (l : list A) (l' : list B) :
  Mp4.map_go f l = GoOk l' -> forall y, In y l' -> exists x, In x l /\ f x = GoOk y.
Proof.
  revert l'; induction l as [|x r IH]; simpl; intros l' H y Hy.
  - injection H as <-. destruct Hy.
  - unfold Mp4.bind in H.
    destruct (f x) as [y0| |] eqn:Ex; try discriminate.
    destruct (Mp4.map_go f r) as [ys| |] eqn:Er; try discriminate.
    injection H as <-. destruct Hy as [<-|Hy].
    + exists x. auto.
    + destruct (IH ys eq_refl y Hy) as (x' & Hx' & Hf). exists x'. auto.
Qed.

(** Without a key, the segment loop of ProcessVideoSegment and
    ProcessAudioSegment is idempotent whenever the fragment step is on the
    fragments of the input. *)
Lemma process_av_idem DI DS (step : Mp4.fragment -> go_result Mp4.fragment)
    (di : DI) (inMp4 out : Mp4.file) :
  (forall seg, In seg (Mp4.file_segments inMp4) ->
   forall fr, In fr (Mp4.seg_fragments seg) ->
   forall y, step fr = GoOk y -> step y = GoOk y) ->
  Mp4.process_av DI DS step di None inMp4 = GoOk out ->
  Mp4.process_av DI DS step di None out = GoOk out.
Proof.
  intros Hstep. unfold Mp4.process_av.
  destruct (Mp4.file_is_fragmented inMp4) eqn:Efr; simpl; [|discriminate].
  unfold Mp4.bind at 1.
  match goal with |- context [Mp4.map_go ?g (Mp4.file_segments inMp4)] =>
    destruct (Mp4.map_go g (Mp4.file_segments inMp4)) as [segs| |] eqn:Es end;
    try discriminate.
  intros H; injection H as <-. simpl.
  erewrite map_go_idem; [reflexivity | exact Es |].
  intros seg Hseg seg' Hseg'.
  unfold Mp4.bind in *.
  destruct (Mp4.map_go step (Mp4.seg_fragments seg)) as [frs| |] eqn:Ef; try discriminate.
  injection Hseg' as <-. simpl.
  rewrite (map_go_idem step _ _ Ef (Hstep seg Hseg)). reflexivity.
Qed.

Lemma has_tfdt_add (c : Z) (cs : list Mp4.traf_child) :
  Mp4.has_tfdt (Mp4.add_tfdt_if_missing (Mp4.has_tfdt cs) c cs) = true.
Proof.
  unfold Mp4.add_tfdt_if_missing.
  destruct (Mp4.has_tfdt cs) eqn:E; [exact E|].
  unfold Mp4.has_tfdt. rewrite existsb_app. simpl. apply orb_true_r.
Qed.

Lemma no_sdtp_add (b : bool) (c : Z) (cs : list Mp4.traf_child) :
  existsb (fun x => String.eqb (Mp4.traf_child_type x) "sdtp") cs = false ->
  existsb (fun x => String.eqb (Mp4.traf_child_type x) "sdtp")
    (Mp4.add_tfdt_if_missing b c cs) = false.
Proof.
  intros H. unfold Mp4.add_tfdt_if_missing.
  destruct b; [exact H|]. rewrite existsb_app, H. reflexivity.
Qed.

Lemma existsb_nth_seq (p : Mp4.traf_child -> bool) (d : Mp4.traf_child) :
  forall cs pre,
  existsb (fun i => p (nth i (pre ++ cs) d)) (seq (List.length pre) (List.length cs))
  = existsb p cs.
Proof.
  induction cs as [|c r IH]; intros pre; [reflexivity|].
  simpl List.length. rewrite <- cons_seq. simpl existsb.
  rewrite nth_middle. f_equal.
  specialize (IH (pre ++ [c])).
  rewrite length_app, <- app_assoc, Nat.add_1_r in IH. exact IH.
Qed.

(** On a child list without sdtp, the scan of ProcessVideoSegment keeps
    the list and reports whether a tfdt is among it. *)
Lemma video_scan_no_sdtp (cs : list Mp4.traf_child) :
  existsb (fun x => String.eqb (Mp4.traf_child_type x) "sdtp") cs = false ->
  Mp4.video_scan cs = GoOk (cs, Mp4.has_tfdt cs).
Proof.
  intros Hno.
  assert (Hnth : forall i,
             String.eqb (Mp4.traf_child_type (nth i cs (Mp4.OtherTrafC ""))) "sdtp" = false).
  { intros i. destruct (nth_in_or_default i cs (Mp4.OtherTrafC "")) as [Hin|Heq].
    - destruct (String.eqb (Mp4.traf_child_type (nth i cs (Mp4.OtherTrafC ""))) "sdtp") eqn:E;
        [|reflexivity].
      rewrite <- Hno. symmetry. apply existsb_exists. eauto.
    - rewrite Heq. reflexivity. }
  assert (Hfold : forall l b,
    fold_left Mp4.video_scan_step l (GoOk (cs, List.length cs, b))
    = GoOk (cs, List.length cs,
            b || existsb (fun i => String.eqb
                  (Mp4.traf_child_type (nth i cs (Mp4.OtherTrafC ""))) "tfdt") l)).
  { induction l as [|i l IH]; intros b; cbn [fold_left existsb].
    - rewrite orb_false_r. reflexivity.
    - assert (Hstep : Mp4.video_scan_step (GoOk (cs, List.length cs, b)) i
              = GoOk (cs, List.length cs,
                      b || String.eqb
                             (Mp4.traf_child_type (nth i cs (Mp4.OtherTrafC ""))) "tfdt")).
      { unfold Mp4.video_scan_step, Mp4.bind. rewrite Hnth. reflexivity. }
      rewrite Hstep, IH, orb_assoc. reflexivity. }
  unfold Mp4.video_scan. rewrite Hfold. simpl.
  rewrite firstn_all.
  pose proof (existsb_nth_seq (fun x => String.eqb (Mp4.traf_child_type x) "tfdt")
                (Mp4.OtherTrafC "") cs []) as Hs.
  simpl in Hs. rewrite Hs. reflexivity.
Qed.

(** The fragment step of ProcessAudioSegment: the traf children are kept
    when they hold a tfdt, and the step is idempotent. *)
Lemma audio_fragment_spec (c : Z) (f f' : Mp4.fragment) (tr : Mp4.traf) :
  Mp4.frag_traf f = Some tr ->
  Mp4.audio_fragment c f = GoOk f' ->
  option_map Mp4.traf_children (Mp4.frag_traf f')
  = Some (Mp4.add_tfdt_if_missing (Mp4.has_tfdt (Mp4.traf_children tr)) c
            (Mp4.traf_children tr))
  /\ Mp4.audio_fragment c f' = GoOk f'.
Proof.
  destruct f as [fcs tr0 mdat]; simpl; intros ->.
  destruct tr as [[[tid fl sz du]|] truns cs]; [|discriminate].
  destruct truns as [|[tf toff tss] ts]; [discriminate|].
  unfold Mp4.audio_fragment; cbn -[Mp4.has_tfdt Mp4.add_tfdt_if_missing].
  intros H; injection H as <-.
  cbn -[Mp4.has_tfdt Mp4.add_tfdt_if_missing].
  split; [reflexivity|].
  rewrite has_tfdt_add. reflexivity.
Qed.

Lemma video_fragment_spec (c : Z) (f f' : Mp4.fragment) (tr : Mp4.traf) :
  Mp4.frag_traf f = Some tr ->
  existsb (fun x => String.eqb (Mp4.traf_child_type x) "sdtp") (Mp4.traf_children tr) = false ->
  Mp4.video_fragment c f = GoOk f' ->
  option_map Mp4.traf_children (Mp4.frag_traf f')
  = Some (Mp4.add_tfdt_if_missing (Mp4.has_tfdt (Mp4.traf_children tr)) c
            (Mp4.traf_children tr))
  /\ Mp4.video_fragment c f' = GoOk f'.
Proof.
  destruct f as [fcs tr0 mdat]; simpl; intros ->.
  destruct tr as [[[tid fl sz du]|] truns cs]; simpl; intros Hno; [|discriminate].
  destruct truns as [|[tf toff tss] ts]; [discriminate|].
  unfold Mp4.video_fragment; cbn -[Mp4.has_tfdt Mp4.add_tfdt_if_missing Mp4.video_scan].
  rewrite (video_scan_no_sdtp cs Hno).
  cbn -[Mp4.has_tfdt Mp4.add_tfdt_if_missing Mp4.video_scan].
  intros H; injection H as <-.
  cbn -[Mp4.has_tfdt Mp4.add_tfdt_if_missing Mp4.video_scan].
  split; [reflexivity|].
  rewrite (video_scan_no_sdtp _ (no_sdtp_add _ c cs Hno)).
  cbn -[Mp4.has_tfdt Mp4.add_tfdt_if_missing Mp4.video_scan].
  rewrite has_tfdt_add. reflexivity.
Qed.

Lemma subtitle_fragment_children raw_tokens (c ts sd : Z) (f f' : Mp4.fragment) (tr : Mp4.traf) :
  Mp4.frag_traf f = Some tr ->
  Mp4.subtitle_fragment raw_tokens c ts sd f = GoOk f' ->
  option_map Mp4.traf_children (Mp4.frag_traf f')
  = Some (Mp4.add_tfdt_if_missing (Mp4.has_tfdt (Mp4.traf_children tr)) c
            (Mp4.traf_children tr)).
Proof.
  unfold Mp4.subtitle_fragment. intros ->.
  destruct tr as [[th|] truns cs]; simpl; [|discriminate].
  destruct (Mp4.frag_mdat f) as [data|]; [|discriminate].
  destruct (TtmlXml.UpdateTTMLToAbsoluteTimestamps raw_tokens data _) as [t| |];
    try discriminate.
  intros H; injection H as <-. reflexivity.
Qed.

(** C2 (what holds): without a decryption key, ProcessAudioSegment keeps
    the traf children of a fragment that already holds a tfdt, so its
    base_media_decode_time is unchanged, and a second run on its output
    returns that output. ProcessVideoSegment does the same on fragments
    whose traf has no sdtp child, and ProcessSubtitleSegment keeps the traf
    children of a fragment that holds a tfdt. *)
Theorem segment_processors_keep_tfdt :
  (forall DI DS (di : DI) (c : Z) (inMp4 out : Mp4.file),
   Mp4.ProcessAudioSegment DI DS inMp4 di None c = GoOk out ->
   Mp4.ProcessAudioSegment DI DS out di None c = GoOk out) /\
  (forall (c : Z) (f f' : Mp4.fragment) (tr : Mp4.traf),
   Mp4.frag_traf f = Some tr -> Mp4.has_tfdt (Mp4.traf_children tr) = true ->
   Mp4.audio_fragment c f = GoOk f' ->
   option_map Mp4.traf_children (Mp4.frag_traf f') = Some (Mp4.traf_children tr)) /\
  (forall DI DS (di : DI) (c : Z) (inMp4 out : Mp4.file),
   (forall seg, In seg (Mp4.file_segments inMp4) ->
    forall fr, In fr (Mp4.seg_fragments seg) ->
    forall tr, Mp4.frag_traf fr = Some tr ->
    existsb (fun x => String.eqb (Mp4.traf_child_type x) "sdtp") (Mp4.traf_children tr)
    = false) ->
   Mp4.ProcessVideoSegment DI DS inMp4 di None c = GoOk out ->
   Mp4.ProcessVideoSegment DI DS out di None c = GoOk out) /\
  (forall (c : Z) (f f' : Mp4.fragment) (tr : Mp4.traf),
   Mp4.frag_traf f = Some tr ->
   existsb (fun x => String.eqb (Mp4.traf_child_type x) "sdtp") (Mp4.traf_children tr)
   = false ->
   Mp4.has_tfdt (Mp4.traf_children tr) = true ->
   Mp4.video_fragment c f = GoOk f' ->
   option_map Mp4.traf_children (Mp4.frag_traf f') = Some (Mp4.traf_children tr)) /\
  (forall raw_tokens (c ts sd : Z) (f f' : Mp4.fragment) (tr : Mp4.traf),
   Mp4.frag_traf f = Some tr -> Mp4.has_tfdt (Mp4.traf_children tr) = true ->
   Mp4.subtitle_fragment raw_tokens c ts sd f = GoOk f' ->
   option_map Mp4.traf_children (Mp4.frag_traf f') = Some (Mp4.traf_children tr)).
Proof.
  split; [|split; [|split; [|split]]].
  - intros DI DS di c inMp4 out. unfold Mp4.ProcessAudioSegment.
    apply process_av_idem.
    intros seg _ fr _ y Hy.
    destruct (Mp4.frag_traf fr) as [tr|] eqn:Etr.
    + exact (proj2 (audio_fragment_spec c fr y tr Etr Hy)).
    + unfold Mp4.audio_fragment in Hy. rewrite Etr in Hy. discriminate.
  - intros c f f' tr Etr Ht Hf.
    rewrite (proj1 (audio_fragment_spec c f f' tr Etr Hf)).
    unfold Mp4.add_tfdt_if_missing. rewrite Ht. reflexivity.
  - intros DI DS di c inMp4 out Hno. unfold Mp4.ProcessVideoSegment.
    apply process_av_idem.
    intros seg Hseg fr Hfr y Hy.
    destruct (Mp4.frag_traf fr) as [tr|] eqn:Etr.
    + exact (proj2 (video_fragment_spec c fr y tr Etr (Hno seg Hseg fr Hfr tr Etr) Hy)).
    + unfold Mp4.video_fragment in Hy. rewrite Etr in Hy. discriminate.
  - intros c f f' tr Etr Hno Ht Hf.
    rewrite (proj1 (video_fragment_spec c f f' tr Etr Hno Hf)).
    unfold Mp4.add_tfdt_if_missing. rewrite Ht. reflexivity.
  - intros raw_tokens c ts sd f f' tr Etr Ht Hf.
    rewrite (subtitle_fragment_children raw_tokens c ts sd f f' tr Etr Hf).
    unfold Mp4.add_tfdt_if_missing. rewrite Ht. reflexivity.
Qed.

(** Where the tfdt promise fails. ProcessVideoSegment removes an sdtp
    child in place while ranging over the children, so the child that
    moves into the freed slot is never looked at. A tfdt right after an
    sdtp is not seen, and a second tfdt (base_media_decode_time = time) is
    appended. Of two leading sdtp children the second is kept, and a second
    run removes it, so the output changes. ProcessSubtitleSegment adds
    time / timescale to the TTML times on every run, so a second run moves
    the cues from 00:00:11.000 to 00:00:21.000. *)
Lemma segment_processors_second_run_differs :
  match video_no_key (example_video_file [Mp4.TfhdC; Mp4.SdtpC; Mp4.TfdtC 5; Mp4.TrunC]) 100
  with
  | GoOk out => traf_children_of out
  | _ => []
  end = [Some [Mp4.TfhdC; Mp4.TfdtC 5; Mp4.TrunC; Mp4.TfdtC 100]] /\
  match Mp4.bind
          (video_no_key (example_video_file
                           [Mp4.SdtpC; Mp4.SdtpC; Mp4.TfhdC; Mp4.TfdtC 5; Mp4.TrunC]) 100)
          (fun out1 => Mp4.bind (video_no_key out1 100) (fun out2 =>
             GoOk (traf_children_of out1, traf_children_of out2)))
  with
  | GoOk p => p
  | _ => ([], [])
  end = ([Some [Mp4.SdtpC; Mp4.TfhdC; Mp4.TfdtC 5; Mp4.TrunC]],
         [Some [Mp4.TfhdC; Mp4.TfdtC 5; Mp4.TrunC]]) /\
  match Mp4.bind
          (Mp4.ProcessSubtitleSegment XmlLex.raw_tokens
             (example_subtitle_file (example_ttml "00:00:01.000" "00:00:03.500"))
             100000000 10000000 20000000)
          (fun out1 => Mp4.bind
             (Mp4.ProcessSubtitleSegment XmlLex.raw_tokens out1 100000000 10000000 20000000)
             (fun out2 => GoOk (mdat_payloads out1, mdat_payloads out2, traf_children_of out2)))
  with
  | GoOk p => p
  | _ => ([], [], [])
  end = ([Some (example_ttml "00:00:11.000" "00:00:13.500")],
         [Some (example_ttml "00:00:21.000" "00:00:23.500")],
         [Some [Mp4.TfhdC; Mp4.TrunC; Mp4.TfdtC 100000000]]).
Proof. split; [|split]; vm_compute; reflexivity. Qed.
